(** * PoolSense: sensor compensation and measurement session

    A shallow embedding of [ms5837.py] (the MS5837-30BA driver) and of the
    session logic of [poolsense.py], with the properties the design document
    states about them.

    Numbers.  Python [int] is unbounded, so it is [Z] and [//] is [Z.div]
    (both round toward minus infinity).  Python [float] is modelled by the
    exact rationals [Q]: every float operation of the source is read as the
    corresponding exact operation, so the last-place effects of binary64 are
    outside this development.  Equalities between computed reals are stated
    with [==] ([Qeq]). *)

From Stdlib Require Import ZArith QArith Qround Qabs Qminmax List Bool Lia Lqa.
Import ListNotations.

Local Open Scope Z_scope.

(** ** Python arithmetic *)

(** [a // b] on [int]. *)
Definition py_floordiv (a b : Z) : Z := a / b.

(** Round half to even, the tie rule of Python's [round]. *)
Definition round_half_even (y : Q) : Z :=
  let f := Qfloor y in
  match Qcompare (y - inject_Z f) (1 # 2) with
  | Lt => f
  | Gt => f + 1
  | Eq => if Z.even f then f else f + 1
  end.

Definition pow10 (ndigits : nat) : Q := inject_Z (10 ^ Z.of_nat ndigits).

(** [round(x, ndigits)] on a float. *)
Definition py_round (x : Q) (ndigits : nat) : Q :=
  (inject_Z (round_half_even (x * pow10 ndigits)) / pow10 ndigits)%Q.

(** [x < y] on floats, as a boolean. *)
Definition Qlt_bool (x y : Q) : bool := negb (Qle_bool y x).

(** [max(x, y)] of two floats: Python keeps the first argument unless the
    second is strictly larger. *)
Definition py_max (x y : Q) : Q := if Qlt_bool x y then y else x.

(** ** The sensor driver, [ms5837.py] *)

Module MS5837.

Definition DENSITY_FRESHWATER : Q := 997.
Definition DENSITY_SALTWATER : Q := 1029.

(** The attributes of an [MS5837] object that the arithmetic touches. *)
Record Sensor := mkSensor {
  C : list Z;              (* [self.C], eight slots, 0..6 read from PROM *)
  D1 : Z;                  (* raw pressure *)
  D2 : Z;                  (* raw temperature *)
  pressure_mbar : Q;
  temperature_c : Q;
  fluid_density : Q
}.

(** [C[i]]; the list always has eight slots, see [calibration_ok]. *)
Definition coef (c : list Z) (i : nat) : Z := nth i c 0.

Definition uint16 (x : Z) : Prop := 0 <= x < 65536.
Definition uint24 (x : Z) : Prop := 0 <= x < 16777216.

Definition calibration_ok (c : list Z) : Prop :=
  length c = 8%nat /\ Forall uint16 c.

(** The locals of [_calculate], one definition per assignment. *)
Section Locals.
Variables (d1 d2 : Z) (c : list Z).

Definition dT : Z := d2 - coef c 5 * 256.
(* first order *)
Definition SENS_1 : Z := coef c 1 * 65536 + py_floordiv (coef c 3 * dT) 128.
Definition OFF_1 : Z := coef c 2 * 131072 + py_floordiv (coef c 4 * dT) 64.
Definition Ti : Z := 2000 + py_floordiv (dT * coef c 6) 8388608.
(* second order, taken when [Ti < 2000] *)
Definition T2 : Z :=
  if Ti <? 2000 then py_floordiv (11 * (dT * dT)) 34359738368 else 0.
Definition OFF2 : Z :=
  if Ti <? 2000 then py_floordiv (31 * (Ti - 2000) ^ 2) 8 else 0.
Definition SENS2 : Z :=
  if Ti <? 2000 then py_floordiv (63 * (Ti - 2000) ^ 2) 32 else 0.
Definition OFF : Z := OFF_1 - OFF2.
Definition SENS : Z := SENS_1 - SENS2.
(* the integer that is handed to the float divisions *)
Definition P_int : Z := py_floordiv (d1 * SENS) 2097152 - OFF.
End Locals.

(** [_calculate]: stores the compensated pressure and temperature. *)
Definition _calculate (s : Sensor) : Sensor :=
  let c := C s in
  let temperature_c0 := (inject_Z (Ti (D2 s) c) / 100)%Q in
  let p := (inject_Z (P_int (D1 s) (D2 s) c) / 32768 / 100)%Q in
  let t := (temperature_c0 - inject_Z (T2 (D2 s) c) / 100)%Q in
  mkSensor (C s) (D1 s) (D2 s) p t (fluid_density s).

(** [depth_mm]: pressure to water depth, against the fixed sea-level
    pressure 1013.25 mbar. *)
Definition depth_mm (s : Sensor) : Q :=
  let water_pressure_pa := ((pressure_mbar s - 1013.25) * 100)%Q in
  let depth_m := (water_pressure_pa / (fluid_density s * 9.80665))%Q in
  (depth_m * 1000)%Q.

Definition pressure (s : Sensor) : Q := pressure_mbar s.
Definition temperature (s : Sensor) : Q := temperature_c s.

(** What the bus delivers during one [read]: both conversions, or an I/O
    exception before or after [D1] was stored. *)
Inductive BusRead :=
| BusOk (d1 d2 : Z)
| BusErrorAfterD1 (d1 : Z)
| BusError.

(** [read]: returns [True] on success; an exception is caught and turned
    into [False]. *)
Definition read (s : Sensor) (raw : BusRead) : Sensor * bool :=
  match raw with
  | BusOk d1 d2 =>
      (_calculate (mkSensor (C s) d1 d2 (pressure_mbar s) (temperature_c s)
                            (fluid_density s)), true)
  | BusErrorAfterD1 d1 =>
      (mkSensor (C s) d1 (D2 s) (pressure_mbar s) (temperature_c s)
                (fluid_density s), false)
  | BusError => (s, false)
  end.

(** [__init__] after [_initialize] has read the PROM words [prom]. *)
Definition init (prom : list Z) : Sensor :=
  mkSensor (firstn 7 prom ++ [0]) 0 0 0 0 DENSITY_FRESHWATER.

(** *** Bus data

    [read_i2c_block_data] returns the requested number of bytes, each in
    0..255. *)
Definition byte (b : Z) : Prop := 0 <= b < 256.

(** [(data[0] << 8) | data[1]], a PROM word. *)
Definition prom_word (data : Z * Z) : Z :=
  Z.lor (Z.shiftl (fst data) 8) (snd data).

(** [(data[0] << 16) | (data[1] << 8) | data[2]], an ADC result. *)
Definition adc_value (data : Z * Z * Z) : Z :=
  let '(b0, b1, b2) := data in
  Z.lor (Z.lor (Z.shiftl b0 16) (Z.shiftl b1 8)) b2.

(** [l[i] = v] on a list that has the slot. *)
Fixpoint list_set (l : list Z) (i : nat) (v : Z) : list Z :=
  match l, i with
  | [], _ => []
  | _ :: l', O => v :: l'
  | a :: l', S i' => a :: list_set l' i' v
  end.

(** The loop of [_initialize] over [self.C = [0] * 8]; [prom i] is the block
    read at register [CMD_PROM_READ + 2 * i]. *)
Definition _initialize (prom : nat -> Z * Z) : list Z :=
  fold_left (fun c i => list_set c i (prom_word (prom i))) (seq 0 7)
            (repeat 0%Z 8).

(** [MS5837()] when the bus answers. *)
Definition new_sensor (prom : nat -> Z * Z) : Sensor :=
  mkSensor (_initialize prom) 0 0 0 0 DENSITY_FRESHWATER.

(** A [read] in which both conversions arrive as three bytes each. *)
Definition read_bytes (s : Sensor) (p t : Z * Z * Z) : Sensor * bool :=
  read s (BusOk (adc_value p) (adc_value t)).

End MS5837.

(** ** Python exceptions

    A computation either returns or raises; the session code can only raise
    through [statistics.mean] of an empty list, an index into an empty list
    or a float division by zero. *)

Inductive PyError := StatisticsError | IndexError | ZeroDivisionError.

Inductive py (A : Type) : Type :=
| Ret (a : A)
| Raise (e : PyError).

Arguments Ret {A} a.
Arguments Raise {A} e.

Definition bind {A B : Type} (m : py A) (k : A -> py B) : py B :=
  match m with
  | Ret a => k a
  | Raise e => Raise e
  end.

Notation "x <- m ;; k" := (bind m (fun x => k))
  (at level 61, m at next level, right associativity).

Local Open Scope Q_scope.

Definition Qsum (l : list Q) : Q := fold_right Qplus 0 l.

(** [statistics.mean]. *)
Definition mean (l : list Q) : py Q :=
  match l with
  | [] => Raise StatisticsError
  | _ => Ret (Qsum l / inject_Z (Z.of_nat (length l)))
  end.

(** [x / y] on floats. *)
Definition py_truediv (x y : Q) : py Q :=
  if Qeq_bool y 0 then Raise ZeroDivisionError else Ret (x / y).

(** [l[0]] and [l[-1]]. *)
Definition py_first {A : Type} (l : list A) : py A :=
  match l with
  | [] => Raise IndexError
  | a :: _ => Ret a
  end.

Definition py_last {A : Type} (l : list A) : py A :=
  match rev l with
  | [] => Raise IndexError
  | a :: _ => Ret a
  end.

(** [l[:n]] and [l[-n:]] for [n > 0]. *)
Definition slice_first {A : Type} (n : nat) (l : list A) : list A := firstn n l.
Definition slice_last {A : Type} (n : nat) (l : list A) : list A :=
  skipn (length l - n) l.

(** [deque(maxlen=m).append(x)]: the oldest entry leaves when full. *)
Definition deque_append {A : Type} (maxlen : N) (l : list A) (x : A) : list A :=
  if (N.of_nat (length l) <? maxlen)%N then l ++ [x] else tl (l ++ [x]).

(** ** The session, [poolsense.py] *)

Module PoolSense.

(** [CONFIG] *)
Definition SAMPLE_INTERVAL_SEC : Q := 1.
Definition BASELINE_DURATION_MIN : Q := 15.
Definition LEAK_THRESHOLD_MM_HR : Q := 0.5.

Inductive Status := idle | baseline | testing | complete.

Definition Status_eqb (a b : Status) : bool :=
  match a, b with
  | idle, idle | baseline, baseline | testing, testing
  | complete, complete => true
  | _, _ => false
  end.

(** One stored sample, the dict with keys [t], [p], [temp], [d]. *)
Record Reading := mkReading {
  r_t : Q;
  r_p : Q;
  r_temp : Q;
  r_d : Q
}.

Inductive VerdictStatus := PASS | BORDERLINE | LEAK | MAJOR_LEAK.

(** The message templates; the rate is printed with [:.2f], kept here as
    the value rounded to two places. *)
Inductive Message :=
| MsgNoLeak
| MsgMinorLoss (rate2 : Q)
| MsgLeakConfirmed (rate2 : Q)
| MsgSignificantLeak (rate2 : Q).

Record Verdict := mkVerdict {
  v_status : VerdictStatus;
  v_message : Message
}.

(** The dict returned by [calculate_leak_rate]. *)
Record LeakResult := mkLeakResult {
  raw_loss_mm : Q;
  evap_correction_mm : Q;
  net_loss_mm : Q;
  leak_rate_mm_hr : Q;
  leak_rate_gal_day : Q;
  elapsed_hours : Q;
  avg_temp_c : Q;
  verdict : Verdict
}.

Record TestSession := mkSession {
  start_time : option Q;
  readings : list Reading;          (* deque(maxlen=86400) *)
  baseline_pressure : option Q;
  baseline_temp : option Q;
  status : Status;
  result : option LeakResult
}.

Definition READINGS_MAXLEN : N := 86400.

(** [TestSession()] *)
Definition new_session : TestSession :=
  mkSession None [] None None idle None.

Definition set_status (s : TestSession) (st : Status) : TestSession :=
  mkSession (start_time s) (readings s) (baseline_pressure s)
            (baseline_temp s) st (result s).

Definition set_start_time (s : TestSession) (t : Q) : TestSession :=
  mkSession (Some t) (readings s) (baseline_pressure s)
            (baseline_temp s) (status s) (result s).

Definition set_result (s : TestSession) (r : option LeakResult) : TestSession :=
  mkSession (start_time s) (readings s) (baseline_pressure s)
            (baseline_temp s) (status s) r.

(** [add_reading] *)
Definition add_reading (s : TestSession)
           (timestamp pressure_mbar temp_c depth_mm : Q) : TestSession :=
  mkSession (start_time s)
            (deque_append READINGS_MAXLEN (readings s)
               (mkReading timestamp
                          (py_round pressure_mbar 3)
                          (py_round temp_c 2)
                          (py_round depth_mm 2)))
            (baseline_pressure s) (baseline_temp s) (status s) (result s).

(** Truth value of [self.start_time]: [None] and [0.0] are false. *)
Definition truthy_time (o : option Q) : bool :=
  match o with
  | None => false
  | Some t => negb (Qeq_bool t 0)
  end.

(** [elapsed_minutes], with [now] the value of [time.time()]. *)
Definition elapsed_minutes (s : TestSession) (now : Q) : Q :=
  match start_time s with
  | Some t => if truthy_time (Some t) then (now - t) / 60 else 0
  | None => 0
  end.

(** [_estimate_evaporation] *)
Definition _estimate_evaporation (water_temp_c : Q) : Q :=
  let base_rate := 0.05 + (water_temp_c - 15) * 0.008 in
  py_max 0.05 base_rate.

(** [_get_verdict] *)
Definition _get_verdict (rate_mm_hr : Q) : Verdict :=
  if Qlt_bool rate_mm_hr 0.1 then
    mkVerdict PASS MsgNoLeak
  else if Qlt_bool rate_mm_hr LEAK_THRESHOLD_MM_HR then
    mkVerdict BORDERLINE (MsgMinorLoss (py_round rate_mm_hr 2))
  else if Qlt_bool rate_mm_hr 2.0 then
    mkVerdict LEAK (MsgLeakConfirmed (py_round rate_mm_hr 2))
  else
    mkVerdict MAJOR_LEAK (MsgSignificantLeak (py_round rate_mm_hr 2)).

(** [calculate_leak_rate], on the stored samples. *)
Definition calculate_leak_rate (rs : list Reading) : py (option LeakResult) :=
  if (length rs <? 60)%nat then Ret None else
  let window := 30%nat in
  let start_depths := map r_d (slice_first window rs) in
  start_depth <- mean start_depths ;;
  let end_depths := map r_d (slice_last window rs) in
  end_depth <- mean end_depths ;;
  first <- py_first rs ;;
  let time_start := r_t first in
  last <- py_last rs ;;
  let time_end := r_t last in
  let elapsed_hrs := (time_end - time_start) / 3600 in
  if Qlt_bool elapsed_hrs 0.1 then Ret None else
  let raw_loss_mm := start_depth - end_depth in
  avg_temp <- mean (map r_temp rs) ;;
  let evap_rate := _estimate_evaporation avg_temp in
  let expected_evap_mm := evap_rate * elapsed_hrs in
  let net_loss_mm := raw_loss_mm - expected_evap_mm in
  leak_rate_mm_hr <- py_truediv net_loss_mm elapsed_hrs ;;
  let pool_surface_m2 := 60 in
  let liters_per_mm := pool_surface_m2 in
  let gal_per_day := (leak_rate_mm_hr * 24 * liters_per_mm) / 3.785 in
  Ret (Some (mkLeakResult
               (py_round raw_loss_mm 2)
               (py_round expected_evap_mm 2)
               (py_round net_loss_mm 2)
               (py_round leak_rate_mm_hr 3)
               (py_round gal_per_day 1)
               (py_round elapsed_hrs 2)
               (py_round avg_temp 1)
               (_get_verdict leak_rate_mm_hr))).


(** *** Process state

    The module globals [session] and [sensor], the local [baseline_offset]
    of the sensor thread, the sleeping [switch_to_testing] threads and the
    result files written so far.  Every [TestSession()] is a new object;
    [session_obj] is the identity of the one the global is bound to. *)

Record Timer := mkTimer {
  owner : nat;       (* the session object built by the same [api_start] *)
  due : Q            (* earliest time at which [time.sleep] returns *)
}.

Record SavedTest := mkSaved {
  saved_result : option LeakResult;
  readings_count : nat;
  saved_start_time : option Q;
  end_time : Q
}.

Record World := mkWorld {
  session : TestSession;
  session_obj : nat;
  objects : nat;                         (* sessions built so far *)
  sensor : option MS5837.Sensor;
  baseline_offset : option Q;
  timers : list Timer;
  files : list SavedTest
}.

Definition with_session (w : World) (s : TestSession) : World :=
  mkWorld s (session_obj w) (objects w) (sensor w) (baseline_offset w)
          (timers w) (files w).

(** The process right after start-up; [sn] is [None] when the driver
    could not be initialised (demo mode). *)
Definition boot (sn : option MS5837.Sensor) : World :=
  mkWorld new_session 0 1 sn None [] [].

(** The JSON bodies of the two POST handlers. *)
Inductive Reply :=
| StartReply (ok : bool)                             (* with its message *)
| StopReply (ok : bool) (r : option LeakResult).

(** [api_start] at time [now]. *)
Definition api_start (w : World) (now : Q) : World * Reply :=
  let fresh := objects w in
  let s := set_start_time (set_status new_session baseline) now in
  (mkWorld s fresh (S fresh) (sensor w) (baseline_offset w)
           (timers w ++ [mkTimer fresh (now + BASELINE_DURATION_MIN * 60)])
           (files w),
   StartReply true).

(** The body of [switch_to_testing] once its sleep is over: it looks at
    whatever the global [session] is bound to at that moment. *)
Definition switch_to_testing (w : World) : World :=
  if Status_eqb (status (session w)) baseline
  then with_session w (set_status (session w) testing)
  else w.

(** [api_stop] at time [now]; the reply is missing when the analysis
    raised. *)
Definition api_stop (w : World) (now : Q) : World * py Reply :=
  let s1 := set_status (session w) complete in
  match calculate_leak_rate (readings s1) with
  | Raise e => (with_session w s1, Raise e)
  | Ret r =>
      let s2 := set_result s1 r in
      (mkWorld s2 (session_obj w) (objects w) (sensor w) (baseline_offset w)
               (timers w)
               (files w ++ [mkSaved r (length (readings s2)) (start_time s2) now]),
       Ret (StopReply true r))
  end.

(** One turn of the loop of [sensor_thread]: [timestamp] and [now] are the
    two readings of the clock, [raw] is what the bus delivers. *)
Definition sensor_tick (w : World) (timestamp now : Q)
           (raw : MS5837.BusRead) : World :=
  let attempt :=
    match sensor w with
    | Some sn => let (sn', ok) := MS5837.read sn raw in (Some sn', ok)
    | None => (None, false)
    end in
  let sn' := fst attempt in
  let '(pressure, temp, depth, offset) :=
    match sn', snd attempt with
    | Some sn, true =>
        let pressure := MS5837.pressure sn in
        let temp := MS5837.temperature sn in
        let offset :=
          match baseline_offset w with
          | None => Some (pressure - 1013.25)
          | Some o => Some o
          end in
        (pressure, temp, MS5837.depth_mm sn, offset)
    | _, _ =>
        let elapsed :=
          if truthy_time (start_time (session w))
          then elapsed_minutes (session w) now else 0 in
        (1113.25 - elapsed * 0.005,
         28.5 + 0.1 * (elapsed / 60),
         1000.0 - elapsed * 0.02,
         baseline_offset w)
    end in
  let s' :=
    match status (session w) with
    | baseline | testing =>
        add_reading (session w) timestamp pressure temp depth
    | _ => session w
    end in
  mkWorld s' (session_obj w) (objects w) sn' offset (timers w) (files w).

(** *** Runs

    The handlers, the sensor loop and the timer threads interleave; each
    is taken as one step. *)
Inductive Event :=
| Tick (timestamp now : Q) (raw : MS5837.BusRead)
| Start (now : Q)
| Stop (now : Q)
| Wake (k : nat) (now : Q).    (* the [k]-th sleeping thread resumes *)

Fixpoint remove_nth {A : Type} (k : nat) (l : list A) : list A :=
  match k, l with
  | _, [] => []
  | O, _ :: l' => l'
  | S k', a :: l' => a :: remove_nth k' l'
  end.

(** A step; [None] when the event cannot occur (no such thread, or it is
    still asleep). *)
Definition step (w : World) (e : Event) : option World :=
  match e with
  | Tick timestamp now raw => Some (sensor_tick w timestamp now raw)
  | Start now => Some (fst (api_start w now))
  | Stop now => Some (fst (api_stop w now))
  | Wake k now =>
      match nth_error (timers w) k with
      | Some tm =>
          if Qle_bool (due tm) now
          then Some (switch_to_testing
                       (mkWorld (session w) (session_obj w) (objects w)
                                (sensor w) (baseline_offset w)
                                (remove_nth k (timers w)) (files w)))
          else None
      | None => None
      end
  end.

Fixpoint run (w : World) (es : list Event) : option World :=
  match es with
  | [] => Some w
  | e :: es' =>
      match step w e with
      | Some w' => run w' es'
      | None => None
      end
  end.

(** *** The polling endpoint *)

(** [int(x)] on a float: truncation toward zero. *)
Definition py_int (x : Q) : Z := if Qle_bool 0 x then Qfloor x else Qceiling x.

(** [x % 1] on a float: the fractional part, in [0, 1). *)
Definition py_mod1 (x : Q) : Q := x - inject_Z (Qfloor x).

(** [get_readings_since] *)
Definition get_readings_since (s : TestSession) (since_timestamp : Q)
  : list Reading :=
  filter (fun r => Qlt_bool since_timestamp (r_t r)) (readings s).

(** The JSON body of [api_data]; [d_elapsed] holds the two numbers printed
    as minutes and two-digit seconds. *)
Record DataReply := mkData {
  d_status : Status;
  d_elapsed : Z * Z;
  d_total_readings : nat;
  d_new_readings : list Reading;
  d_latest : option Reading;
  d_leak_rate : option LeakResult;
  d_result : option LeakResult
}.

(** [api_data] for the query value [since], at time [now]. *)
Definition api_data (w : World) (since now : Q) : py DataReply :=
  let s := session w in
  let new_readings := get_readings_since s since in
  let latest :=
    match new_readings with
    | [] => None
    | _ => Some (List.last new_readings (mkReading 0 0 0 0))
    end in
  let elapsed_min := elapsed_minutes s now in
  let elapsed_str := (py_int elapsed_min, py_int (py_mod1 elapsed_min * 60)) in
  leak_rate <-
    (if Status_eqb (status s) testing && Qlt_bool 6 elapsed_min
     then calculate_leak_rate (readings s) else Ret None) ;;
  Ret (mkData (status s) elapsed_str (length (readings s))
              (slice_last 300 new_readings) latest leak_rate (result s)).

End PoolSense.

(** ** The design document's formulas

    Written from the document's own words, to be compared with the code
    above. *)

Module Spec.

Import PoolSense.

(** [floor(a / b)] of the real quotient. *)
Definition floor_div (a b : Z) : Z := Qfloor (inject_Z a / inject_Z b).

(** Truncation toward zero of a real number, and of a quotient. *)
Definition truncate (q : Q) : Z :=
  if Qle_bool 0 q then Qfloor q else Qceiling q.
Definition trunc_div (a b : Z) : Z := truncate (inject_Z a / inject_Z b).

(** Steps 1 to 8 of the compensation algorithm, over a division rule for
    the integer quotients; the result is (pressureMbar, temperatureC). *)
Definition compensate_with (div : Z -> Z -> Z) (D1 D2 : Z) (C : nat -> Z)
  : Q * Q :=
  let dT := (D2 - C 5%nat * 256)%Z in
  let SENS := (C 1%nat * 65536 + div (C 3%nat * dT) 128)%Z in
  let OFF := (C 2%nat * 131072 + div (C 4%nat * dT) 64)%Z in
  let Ti := (2000 + div (dT * C 6%nat) 8388608)%Z in
  let low := (Ti <? 2000)%Z in
  let T2 := if low then div (11 * dT ^ 2)%Z 34359738368%Z else 0%Z in
  let OFF2 := if low then div (31 * (Ti - 2000) ^ 2)%Z 8%Z else 0%Z in
  let SENS2 := if low then div (63 * (Ti - 2000) ^ 2)%Z 32%Z else 0%Z in
  let OFF := (OFF - OFF2)%Z in
  let SENS := (SENS - SENS2)%Z in
  (inject_Z (div (D1 * SENS) 2097152 - OFF)%Z / 32768 / 100,
   inject_Z (Ti - T2)%Z / 100).

(** The algorithm as its steps are written, with [floor]. *)
Definition compensate := compensate_with floor_div.

(** The algorithm under the rounding rule "truncation toward zero". *)
Definition compensate_trunc := compensate_with trunc_div.

(** Depth from pressure, against a reference pressure. *)
Definition depthMm (pressureMbar referencePressureMbar fluidDensityKgM3 : Q) : Q :=
  (pressureMbar - referencePressureMbar) * 100
    / (fluidDensityKgM3 * 9.80665) * 1000.

Definition FRESHWATER : Q := 997.0.

(** The leak analyzer's quantities over a sample sequence. *)
Definition average (l : list Q) : Q :=
  Qsum l / inject_Z (Z.of_nat (length l)).

Definition firstTimestamp (rs : list Reading) : Q := r_t (hd (mkReading 0 0 0 0) rs).
Definition lastTimestamp (rs : list Reading) : Q := r_t (List.last rs (mkReading 0 0 0 0)).

Definition elapsedSeconds (rs : list Reading) : Q :=
  lastTimestamp rs - firstTimestamp rs.
Definition elapsedHours (rs : list Reading) : Q := elapsedSeconds rs / 3600.

Definition windowSize : nat := 30.
Definition startDepth (rs : list Reading) : Q :=
  average (map r_d (firstn windowSize rs)).
Definition endDepth (rs : list Reading) : Q :=
  average (map r_d (skipn (length rs - windowSize) rs)).
Definition rawLossMm (rs : list Reading) : Q := startDepth rs - endDepth rs.

Definition avgTempC (rs : list Reading) : Q := average (map r_temp rs).


(** The two "insufficient data" conditions, and their absence. *)
Definition insufficient (rs : list Reading) : Prop :=
  (length rs < 60)%nat \/ elapsedSeconds rs < 360.
Definition accepted (rs : list Reading) : Prop :=
  (60 <= length rs)%nat /\ 360 <= elapsedSeconds rs.

(** [x] lies on the decimal grid with [n] places. *)
Definition on_grid (n : nat) (x : Q) : Prop :=
  exists k : Z, x == inject_Z k / pow10 n.

(** A sample as rounding for storage leaves it: decimals with 3, 2 and 2
    places. *)
Definition stored (r : Reading) : Prop :=
  on_grid 3 (r_p r) /\ on_grid 2 (r_temp r) /\ on_grid 2 (r_d r).

(** The range of a signed 64-bit integer. *)
Definition int64 (x : Z) : Prop := (- 2 ^ 63 <= x < 2 ^ 63)%Z.

End Spec.

(** The net loss of [calculate_leak_rate] before it is rounded, over the
    windows and the span above. *)
Definition net_loss (rs : list PoolSense.Reading) : Q :=
  Spec.rawLossMm rs
  - PoolSense._estimate_evaporation (Spec.avgTempC rs) * Spec.elapsedHours rs.

(** ** Auxiliary notions for the statements below *)

Module Aux.

Import PoolSense.

(** Samples in the order of their time stamps. *)
Definition chronological (rs : list Reading) : Prop :=
  ForallOrdPairs (fun a b => r_t a <= r_t b) rs.

(** The four classes in increasing order of severity. *)
Definition severity (c : VerdictStatus) : nat :=
  match c with
  | PASS => 0
  | BORDERLINE => 1
  | LEAK => 2
  | MAJOR_LEAK => 3
  end.

Definition shift_time (tau : Q) (r : Reading) : Reading :=
  mkReading (r_t r + tau) (r_p r) (r_temp r) (r_d r).

(** The status a step leads to. *)
Definition next_status (st : Status) (e : Event) : Status :=
  match e with
  | Tick _ _ _ => st
  | Start _ => baseline
  | Stop _ => complete
  | Wake _ _ => match st with baseline => testing | _ => st end
  end.

(** How many starts, stops and timer wake-ups a run contains. *)
Definition is_start (e : Event) : bool :=
  match e with Start _ => true | _ => false end.


(** The worlds a process can be in. *)
Definition reachable (w : World) : Prop :=
  exists sn es, run (boot sn) es = Some w.

(** What holds of the session and the counters of every reachable world. *)
Definition consistent (w : World) : Prop :=
  (status (session w) = baseline \/ status (session w) = testing ->
   exists t, start_time (session w) = Some t)
  /\ (start_time (session w) = None -> readings (session w) = [])
  /\ (result (session w) <> None -> status (session w) = complete)
  /\ (status (session w) = complete ->
      calculate_leak_rate (readings (session w)) = Ret (result (session w)))
  /\ objects w = S (session_obj w)
  /\ Forall (fun tm => (owner tm < objects w)%nat) (timers w).

(** The sensor and the recorded offset of [w'] are those of [w]. *)
Definition same_equipment (w w' : World) : Prop :=
  match sensor w, sensor w' with
  | None, None => True
  | Some sn, Some sn' =>
      MS5837.C sn' = MS5837.C sn
      /\ MS5837.fluid_density sn' = MS5837.fluid_density sn
  | _, _ => False
  end
  /\ (forall o, baseline_offset w = Some o -> baseline_offset w' = Some o).

End Aux.

(** ** Concrete inputs used below *)

Module Vectors.

Import PoolSense.

(** A sensor at about 1100 mbar and 20.00 degrees ([dT = 68]). *)
Definition warm_sensor : MS5837.Sensor :=
  MS5837.mkSensor [0; 46372; 43981; 29059; 27842; 31553; 28165; 0]%Z
                  6465444 8077636 0 0 MS5837.DENSITY_FRESHWATER.

(** A sensor just below the reference temperature ([dT = -1]). *)
Definition cold_sensor : MS5837.Sensor :=
  MS5837.mkSensor [0; 0; 0; 0; 0; 1; 1; 0]%Z
                  0 255 0 0 MS5837.DENSITY_FRESHWATER.

(** Sixty-one stored samples, one per minute over one hour, at 15
    degrees: the level stands at 0.15 mm (0.14 for the thirtieth sample)
    and then at 0. *)
Definition level (i : nat) : Q :=
  if (i <? 29)%nat then 0.15 else if (i =? 29)%nat then 0.14 else 0.

Definition hour_samples : list Reading :=
  map (fun i => mkReading (inject_Z (Z.of_nat i) * 60) 1013.25 15 (level i))
      (seq 0 61).

(** The first ten of them: too few, and too short a span. *)
Definition few_samples : list Reading := firstn 10 hour_samples.

(** A process in demo mode with a test in its baseline phase and one
    stored sample. *)
Definition baseline_world : World :=
  sensor_tick (fst (api_start (boot None) 0)) 1 1 MS5837.BusError.

(** Test A is started at 0 s and stopped at 60 s, test B is started at
    840 s; then the thread that [api_start] created for A wakes at 900 s. *)
Definition superseded_run : list Event :=
  [Start 0; Stop 60; Start 840; Wake 0 900].

(** The same with A replaced by B without a stop. *)
Definition replaced_run : list Event :=
  [Start 0; Start 840; Wake 0 900].

(** A process with a working sensor, a test started at 0 s and the first
    turn of the sensor loop, which reads the raw counts of
    [warm_sensor]. *)
Definition first_reading_world : World :=
  sensor_tick
    (fst (api_start
            (boot (Some (MS5837.init [0; 46372; 43981; 29059; 27842; 31553; 28165]%Z)))
            0))
    1 1 (MS5837.BusOk 6465444 8077636).

End Vectors.

(** * Properties *)

(** ** Integer quotients *)

Lemma floor_div_is_floordiv (a b : Z) : Spec.floor_div a b = py_floordiv a b.
Proof.
  unfold Spec.floor_div, py_floordiv. symmetry. apply Zdiv_Qdiv.
Qed.

Lemma Qdiv_nonneg (a b : Z) :
  (0 <= a)%Z -> (0 < b)%Z -> 0 <= inject_Z a / inject_Z b.
Proof.
  intros Ha Hb. apply Qle_shift_div_l.
  - change 0 with (inject_Z 0). rewrite <- Zlt_Qlt. exact Hb.
  - rewrite Qmult_0_l. change 0 with (inject_Z 0). rewrite <- Zle_Qle. exact Ha.
Qed.

Lemma Qdiv_neg (a b : Z) :
  (a < 0)%Z -> (0 < b)%Z -> inject_Z a / inject_Z b < 0.
Proof.
  intros Ha Hb. apply Qlt_shift_div_r.
  - change 0 with (inject_Z 0). rewrite <- Zlt_Qlt. exact Hb.
  - rewrite Qmult_0_l. change 0 with (inject_Z 0). rewrite <- Zlt_Qlt. exact Ha.
Qed.

(** Truncation of a quotient is [Z.quot]. *)
Lemma trunc_div_is_quot (a b : Z) :
  (0 < b)%Z -> Spec.trunc_div a b = Z.quot a b.
Proof.
  intro Hb. unfold Spec.trunc_div, Spec.truncate.
  destruct (Z.le_gt_cases 0 a) as [Ha | Ha].
  - assert (H : Qle_bool 0 (inject_Z a / inject_Z b) = true)
      by (apply Qle_bool_iff, Qdiv_nonneg; assumption).
    rewrite H, <- Zdiv_Qdiv. symmetry. apply Z.quot_div_nonneg; lia.
  - assert (H : Qle_bool 0 (inject_Z a / inject_Z b) = false).
    { destruct (Qle_bool 0 (inject_Z a / inject_Z b)) eqn:E; [| reflexivity].
      apply Qle_bool_iff in E. pose proof (Qdiv_neg a b Ha Hb) as N.
      exfalso. apply (Qlt_irrefl 0). eapply Qle_lt_trans; eassumption. }
    rewrite H. unfold Qceiling.
    assert (E : - (inject_Z a / inject_Z b) == inject_Z (- a) / inject_Z b).
    { rewrite inject_Z_opp. field. intro E0.
      unfold Qeq in E0; cbn in E0. lia. }
    rewrite E, <- Zdiv_Qdiv.
    rewrite <- (Z.quot_div_nonneg (- a) b) by lia.
    rewrite Z.quot_opp_l by lia. apply Z.opp_involutive.
Qed.

(** On a non-negative dividend the two rounding rules agree. *)
Lemma trunc_div_nonneg (a b : Z) :
  (0 <= a)%Z -> (0 < b)%Z -> Spec.trunc_div a b = py_floordiv a b.
Proof.
  intros Ha Hb. rewrite trunc_div_is_quot by assumption.
  unfold py_floordiv. apply Z.quot_div_nonneg; lia.
Qed.

Lemma floordiv_bounds (a b : Z) :
  (0 < b)%Z -> (b * py_floordiv a b <= a < b * py_floordiv a b + b)%Z.
Proof.
  intro Hb. unfold py_floordiv.
  pose proof (Z.div_mod a b ltac:(lia)) as E.
  pose proof (Z.mod_pos_bound a b Hb) as B. lia.
Qed.

(** ** Compensation engine *)

Section Compensation.

Import MS5837.

Lemma inject_Z_eq (a b : Z) : a = b -> inject_Z a == inject_Z b.
Proof. intros ->. reflexivity. Qed.

(** The code and the written steps compute the same integers. *)
Lemma compensate_pressure_int (d1 d2 : Z) (c : list Z) :
  fst (Spec.compensate d1 d2 (coef c))
  == inject_Z (P_int d1 d2 c) / 32768 / 100.
Proof.
  unfold Spec.compensate, Spec.compensate_with; cbn [fst].
  rewrite !floor_div_is_floordiv.
  apply Qmult_comp; [| reflexivity].
  apply Qmult_comp; [| reflexivity].
  apply inject_Z_eq.
  unfold P_int, OFF, SENS, OFF_1, SENS_1, OFF2, SENS2, Ti, dT.
  reflexivity.
Qed.

Lemma compensate_temperature_int (d1 d2 : Z) (c : list Z) :
  snd (Spec.compensate d1 d2 (coef c))
  == inject_Z (Ti d2 c - T2 d2 c) / 100.
Proof.
  unfold Spec.compensate, Spec.compensate_with; cbn [snd].
  rewrite !floor_div_is_floordiv.
  apply Qmult_comp; [| reflexivity].
  apply inject_Z_eq.
  unfold T2, Ti, dT.
  replace ((d2 - coef c 5 * 256) ^ 2)%Z
    with ((d2 - coef c 5 * 256) * (d2 - coef c 5 * 256))%Z by ring.
  reflexivity.
Qed.

(** [_calculate] against the written steps, for any integers. *)
Lemma calculate_follows_written_steps_aux (s : Sensor) :
  pressure_mbar (_calculate s) == fst (Spec.compensate (D1 s) (D2 s) (coef (C s)))
  /\ temperature_c (_calculate s) == snd (Spec.compensate (D1 s) (D2 s) (coef (C s))).
Proof.
  split.
  - rewrite compensate_pressure_int. reflexivity.
  - rewrite compensate_temperature_int. cbn [_calculate temperature_c].
    unfold Z.sub. rewrite inject_Z_plus, inject_Z_opp. field.
Qed.


End Compensation.

Section Rounding.

Import MS5837.

(** Where every dividend is non-negative, the written steps do not depend
    on the rounding rule of the quotients. *)
Lemma compensate_with_nonneg (div : Z -> Z -> Z) (d1 d2 : Z) (k : nat -> Z) :
  (forall a b, (0 <= a)%Z -> (0 < b)%Z -> div a b = py_floordiv a b) ->
  (0 <= d1)%Z -> (0 <= d2 - k 5%nat * 256)%Z ->
  (forall i, (0 <= k i)%Z) ->
  Spec.compensate_with div d1 d2 k = Spec.compensate_with py_floordiv d1 d2 k.
Proof.
  intros Hdiv H1 HdT Hk. unfold Spec.compensate_with. cbv zeta.
  set (dt := (d2 - k 5%nat * 256)%Z) in *.
  assert (E3 : div (k 3%nat * dt)%Z 128%Z = py_floordiv (k 3%nat * dt) 128)
    by (apply Hdiv; [apply Z.mul_nonneg_nonneg; auto | lia]).
  assert (E4 : div (k 4%nat * dt)%Z 64%Z = py_floordiv (k 4%nat * dt) 64)
    by (apply Hdiv; [apply Z.mul_nonneg_nonneg; auto | lia]).
  assert (E6 : div (dt * k 6%nat)%Z 8388608%Z = py_floordiv (dt * k 6%nat) 8388608)
    by (apply Hdiv; [apply Z.mul_nonneg_nonneg; auto | lia]).
  rewrite E3, E4, E6.
  assert (P3 : (0 <= py_floordiv (k 3%nat * dt) 128)%Z)
    by (apply Z.div_pos; [apply Z.mul_nonneg_nonneg; auto | lia]).
  assert (P6 : (0 <= py_floordiv (dt * k 6%nat) 8388608)%Z)
    by (apply Z.div_pos; [apply Z.mul_nonneg_nonneg; auto | lia]).
  assert (L : (2000 + py_floordiv (dt * k 6%nat) 8388608 <? 2000)%Z = false)
    by (apply Z.ltb_ge; lia).
  rewrite L. rewrite Hdiv; [reflexivity | | lia].
  apply Z.mul_nonneg_nonneg; [assumption |].
  pose proof (Hk 1%nat). lia.
Qed.

Lemma coef_nonneg (c : list Z) (i : nat) :
  Forall uint16 c -> (0 <= coef c i)%Z.
Proof.
  intro F. unfold coef. revert i.
  induction F as [| x l Hx _ IH]; intros [| i]; cbn; try lia.
  - unfold uint16 in Hx. lia.
  - apply IH.
Qed.

(** C2, as the code has it.  Every integer quotient of [_calculate] is the
    floor of the real quotient (rounding toward minus infinity).  The three
    second-order quotients have a square as dividend, so for them this is
    also truncation toward zero; and when [dT >= 0] every dividend is
    non-negative and the stored results are those of the truncating
    steps. *)
Theorem calculate_quotients_round_down (s : Sensor) :
  let c := C s in
  let dt := dT (D2 s) c in
  let ti := Ti (D2 s) c in
  SENS_1 (D2 s) c = (coef c 1 * 65536 + Spec.floor_div (coef c 3 * dt) 128)%Z
  /\ OFF_1 (D2 s) c = (coef c 2 * 131072 + Spec.floor_div (coef c 4 * dt) 64)%Z
  /\ ti = (2000 + Spec.floor_div (dt * coef c 6) 8388608)%Z
  /\ P_int (D1 s) (D2 s) c
     = (Spec.floor_div (D1 s * SENS (D2 s) c) 2097152 - OFF (D2 s) c)%Z
  /\ T2 (D2 s) c
     = (if (ti <? 2000)%Z then Spec.trunc_div (11 * (dt * dt)) 34359738368 else 0)%Z
  /\ OFF2 (D2 s) c
     = (if (ti <? 2000)%Z then Spec.trunc_div (31 * (ti - 2000) ^ 2) 8 else 0)%Z
  /\ SENS2 (D2 s) c
     = (if (ti <? 2000)%Z then Spec.trunc_div (63 * (ti - 2000) ^ 2) 32 else 0)%Z
  /\ (uint24 (D1 s) -> calibration_ok c -> (0 <= dt)%Z ->
      pressure_mbar (_calculate s)
        == fst (Spec.compensate_trunc (D1 s) (D2 s) (coef c))
      /\ temperature_c (_calculate s)
        == snd (Spec.compensate_trunc (D1 s) (D2 s) (coef c))).
Proof.
  cbv zeta. rewrite !floor_div_is_floordiv.
  repeat match goal with |- _ /\ _ => split end; try reflexivity.
  - unfold T2. destruct (Ti (D2 s) (C s) <? 2000)%Z; [| reflexivity].
    symmetry. apply trunc_div_nonneg; nia.
  - unfold OFF2. destruct (Ti (D2 s) (C s) <? 2000)%Z; [| reflexivity].
    symmetry. apply trunc_div_nonneg; nia.
  - unfold SENS2. destruct (Ti (D2 s) (C s) <? 2000)%Z; [| reflexivity].
    symmetry. apply trunc_div_nonneg; nia.
  - intros H1 [_ Hc] HdT.
    assert (E : Spec.compensate_trunc (D1 s) (D2 s) (coef (C s))
                = Spec.compensate (D1 s) (D2 s) (coef (C s))).
    { unfold Spec.compensate_trunc, Spec.compensate.
      rewrite (compensate_with_nonneg Spec.trunc_div), (compensate_with_nonneg Spec.floor_div);
        try reflexivity; try exact HdT; try (intro; apply coef_nonneg; exact Hc);
        try (unfold uint24 in H1; lia).
      - intros a b _ _. apply floor_div_is_floordiv.
      - intros a b. apply trunc_div_nonneg. }
    rewrite E.
    destruct (calculate_follows_written_steps_aux s) as [Hp Ht].
    split; assumption.
Qed.

End Rounding.

Section RoundingExamples.

Import MS5837 Vectors.


(** The stored values of the two vectors. *)
Example warm_sensor_values :
  dT (D2 warm_sensor) (C warm_sensor) = 68%Z
  /\ Ti (D2 warm_sensor) (C warm_sensor) = 2000%Z
  /\ P_int (D1 warm_sensor) (D2 warm_sensor) (C warm_sensor) = 3604576914%Z
  /\ pressure_mbar (_calculate warm_sensor) == 1802288457 # 1638400
  /\ temperature_c (_calculate warm_sensor) == 20.
Proof. repeat split; vm_compute; reflexivity. Qed.

Example cold_sensor_values :
  dT (D2 cold_sensor) (C cold_sensor) = (-1)%Z
  /\ Ti (D2 cold_sensor) (C cold_sensor) = 1999%Z
  /\ T2 (D2 cold_sensor) (C cold_sensor) = 0%Z
  /\ temperature_c (_calculate cold_sensor) == 19.99.
Proof. repeat split; vm_compute; reflexivity. Qed.

(** C2 fails as stated: with [dT = -1] the quotient [dT * C6 / 8388608] is
    [-1] in the code and [0] under truncation, so the code stores 19.99
    degrees where the truncating steps give 20.00. *)
Lemma calculate_does_not_truncate :
  uint24 (D1 cold_sensor) /\ uint24 (D2 cold_sensor)
  /\ calibration_ok (C cold_sensor)
  /\ py_floordiv (dT (D2 cold_sensor) (C cold_sensor) * coef (C cold_sensor) 6)
                 8388608 = (-1)%Z
  /\ Spec.trunc_div (dT (D2 cold_sensor) (C cold_sensor) * coef (C cold_sensor) 6)
                    8388608 = 0%Z
  /\ snd (Spec.compensate_trunc (D1 cold_sensor) (D2 cold_sensor)
                                (coef (C cold_sensor))) == 20
  /\ ~ temperature_c (_calculate cold_sensor)
        == snd (Spec.compensate_trunc (D1 cold_sensor) (D2 cold_sensor)
                                      (coef (C cold_sensor))).
Proof.
  repeat split; try (vm_compute; reflexivity);
    try (unfold uint24; cbn; lia).
  - cbn; repeat constructor; unfold uint16; lia.
  - vm_compute. discriminate.
Qed.

Lemma calculate_quotients_round_down_witness :
  pressure_mbar (_calculate warm_sensor)
    == fst (Spec.compensate_trunc (D1 warm_sensor) (D2 warm_sensor)
                                  (coef (C warm_sensor)))
  /\ temperature_c (_calculate warm_sensor)
    == snd (Spec.compensate_trunc (D1 warm_sensor) (D2 warm_sensor)
                                  (coef (C warm_sensor))).
Proof.
  apply (calculate_quotients_round_down warm_sensor).
  - unfold uint24; cbn; lia.
  - split; [reflexivity |].
    cbn; repeat constructor; unfold uint16; lia.
  - vm_compute. discriminate.
Defined.

End RoundingExamples.

(** ** Rounding to decimal places *)

Lemma Qlt_bool_iff (x y : Q) : Qlt_bool x y = true <-> x < y.
Proof.
  unfold Qlt_bool. rewrite negb_true_iff. split.
  - intro H. apply Qnot_le_lt. intro L. apply Qle_bool_iff in L. congruence.
  - intro H. destruct (Qle_bool y x) eqn:E; [| reflexivity].
    apply Qle_bool_iff in E. exfalso. apply (Qlt_irrefl x).
    eapply Qlt_le_trans; eassumption.
Qed.

Lemma Qlt_bool_false_iff (x y : Q) : Qlt_bool x y = false <-> y <= x.
Proof.
  unfold Qlt_bool. rewrite negb_false_iff. apply Qle_bool_iff.
Qed.

Lemma py_max_is_Qmax (x y : Q) : py_max x y == Qmax x y.
Proof.
  unfold py_max. destruct (Qlt_bool x y) eqn:E.
  - apply Qlt_bool_iff in E. symmetry. apply Q.max_r. apply Qlt_le_weak, E.
  - apply Qlt_bool_false_iff in E. symmetry. apply Q.max_l, E.
Qed.

Lemma round_half_even_comp (x y : Q) :
  x == y -> round_half_even x = round_half_even y.
Proof.
  intro E. unfold round_half_even.
  rewrite (Qfloor_comp x y E).
  assert (E' : x - inject_Z (Qfloor y) == y - inject_Z (Qfloor y))
    by (rewrite E; reflexivity).
  rewrite (Qcompare_comp _ _ E' _ _ (Qeq_refl (1 # 2))). reflexivity.
Qed.

Lemma py_round_comp (x y : Q) (n : nat) : x == y -> py_round x n = py_round y n.
Proof.
  intro E. unfold py_round.
  rewrite (round_half_even_comp (x * pow10 n) (y * pow10 n))
    by (rewrite E; reflexivity).
  reflexivity.
Qed.

(** The rounded integer is within one half of the argument. *)
Lemma round_half_even_close (y : Q) :
  y - (1 # 2) <= inject_Z (round_half_even y)
  /\ inject_Z (round_half_even y) <= y + (1 # 2).
Proof.
  unfold round_half_even.
  pose proof (Qfloor_le y) as Lo. pose proof (Qlt_floor y) as Hi.
  rewrite inject_Z_plus in Hi. change (inject_Z 1) with 1 in Hi.
  destruct (Qcompare_spec (y - inject_Z (Qfloor y)) (1 # 2)) as [E | L | G].
  - destruct (Z.even (Qfloor y)).
    + split; lra.
    + rewrite inject_Z_plus. change (inject_Z 1) with 1. split; lra.
  - split; lra.
  - rewrite inject_Z_plus. change (inject_Z 1) with 1. split; lra.
Qed.

Lemma pow10_pos (n : nat) : 0 < pow10 n.
Proof.
  unfold pow10. change 0 with (inject_Z 0). rewrite <- Zlt_Qlt.
  apply Z.pow_pos_nonneg; lia.
Qed.

(** [round(x, n)] is a decimal with [n] places, at most half a unit of the
    last place away from [x]. *)
Lemma py_round_on_grid (x : Q) (n : nat) : Spec.on_grid n (py_round x n).
Proof.
  exists (round_half_even (x * pow10 n)). reflexivity.
Qed.

Lemma py_round_close (x : Q) (n : nat) :
  Qabs (py_round x n - x) <= (1 # 2) / pow10 n.
Proof.
  pose proof (pow10_pos n) as P.
  destruct (round_half_even_close (x * pow10 n)) as [Lo Hi].
  unfold py_round. set (k := inject_Z (round_half_even (x * pow10 n))) in *.
  assert (NZ : ~ pow10 n == 0) by (intro E; rewrite E in P; inversion P).
  assert (E : k / pow10 n - x == (k - x * pow10 n) / pow10 n) by (field; exact NZ).
  rewrite E. apply Qabs_Qle_condition. split.
  - apply Qle_shift_div_l; [exact P |].
    assert (E2 : - ((1 # 2) / pow10 n) * pow10 n == - (1 # 2)) by (field; exact NZ).
    rewrite E2. lra.
  - apply Qle_shift_div_r; [exact P |].
    assert (E2 : (1 # 2) / pow10 n * pow10 n == 1 # 2) by (field; exact NZ).
    rewrite E2. lra.
Qed.

(** Rounding is not the identity: a value off the grid is changed. *)
Example py_round_changes_value :
  py_round 1013.2567 3 == 1013.257 /\ ~ py_round 1013.2567 3 == 1013.2567.
Proof. split; vm_compute; [reflexivity | discriminate]. Qed.

(** Ties go to the even neighbour. *)
Example py_round_ties :
  py_round 0.125 2 == 0.12 /\ py_round 0.375 2 == 0.38
  /\ py_round (-0.125) 2 == -0.12.
Proof. repeat split; vm_compute; reflexivity. Qed.

(** ** Leak analyzer *)

Section Analyzer.

Import PoolSense.

Lemma mean_nonempty (l : list Q) :
  (0 < length l)%nat -> mean l = Ret (Spec.average l).
Proof. destruct l; cbn [length]; [lia | reflexivity]. Qed.

Lemma py_first_nonempty (rs : list Reading) (d : Reading) :
  (0 < length rs)%nat -> py_first rs = Ret (hd d rs).
Proof. destruct rs; cbn [length]; [lia | reflexivity]. Qed.

Lemma py_last_nonempty (rs : list Reading) (d : Reading) :
  (0 < length rs)%nat -> py_last rs = Ret (List.last rs d).
Proof.
  intro H. destruct (exists_last (l := rs)) as [l' [a E]].
  - intro E; subst; cbn in H; lia.
  - subst rs. unfold py_last. rewrite rev_app_distr, last_last. reflexivity.
Qed.

(** The span test of the code, in seconds. *)
Lemma short_span_iff (rs : list Reading) :
  Qlt_bool (Spec.elapsedHours rs) 0.1 = true <-> Spec.elapsedSeconds rs < 360.
Proof.
  rewrite Qlt_bool_iff. unfold Spec.elapsedHours.
  assert (E : Spec.elapsedSeconds rs / 3600
              == Spec.elapsedSeconds rs * (1 # 3600)) by field.
  rewrite E. split; intro H; lra.
Qed.

Lemma long_span_iff (rs : list Reading) :
  Qlt_bool (Spec.elapsedHours rs) 0.1 = false <-> 360 <= Spec.elapsedSeconds rs.
Proof.
  split; intro H.
  - apply Qnot_lt_le. intro L. apply short_span_iff in L. congruence.
  - destruct (Qlt_bool (Spec.elapsedHours rs) 0.1) eqn:E; [| reflexivity].
    apply short_span_iff in E. exfalso. apply (Qlt_irrefl 360).
    eapply Qle_lt_trans; eassumption.
Qed.

Lemma calculate_leak_rate_few (rs : list Reading) :
  (length rs < 60)%nat -> calculate_leak_rate rs = Ret None.
Proof.
  intro H. unfold calculate_leak_rate.
  apply Nat.ltb_lt in H. rewrite H. reflexivity.
Qed.

Ltac enter_analysis rs H :=
  unfold calculate_leak_rate;
  replace (length rs <? 60)%nat with false by (symmetry; apply Nat.ltb_ge; exact H);
  cbv zeta;
  rewrite (mean_nonempty (map r_d (slice_first 30 rs)))
    by (unfold slice_first; rewrite length_map, length_firstn; lia);
  rewrite (mean_nonempty (map r_d (slice_last 30 rs)))
    by (unfold slice_last; rewrite length_map, length_skipn; lia);
  rewrite (py_first_nonempty rs (mkReading 0 0 0 0)) by lia;
  rewrite (py_last_nonempty rs (mkReading 0 0 0 0)) by lia;
  cbn [bind];
  change ((r_t (List.last rs (mkReading 0 0 0 0))
           - r_t (hd (mkReading 0 0 0 0) rs)) / 3600)
    with (Spec.elapsedHours rs).

Lemma calculate_leak_rate_short_span (rs : list Reading) :
  (60 <= length rs)%nat -> Spec.elapsedSeconds rs < 360 ->
  calculate_leak_rate rs = Ret None.
Proof.
  intros H S. apply short_span_iff in S.
  enter_analysis rs H. rewrite S. reflexivity.
Qed.

Lemma calculate_leak_rate_enough (rs : list Reading) :
  (60 <= length rs)%nat -> 360 <= Spec.elapsedSeconds rs ->
  calculate_leak_rate rs =
  Ret (Some (mkLeakResult
               (py_round (Spec.rawLossMm rs) 2)
               (py_round (_estimate_evaporation (Spec.avgTempC rs)
                          * Spec.elapsedHours rs) 2)
               (py_round (net_loss rs) 2)
               (py_round (net_loss rs / Spec.elapsedHours rs) 3)
               (py_round (net_loss rs / Spec.elapsedHours rs * 24 * 60 / 3.785) 1)
               (py_round (Spec.elapsedHours rs) 2)
               (py_round (Spec.avgTempC rs) 1)
               (_get_verdict (net_loss rs / Spec.elapsedHours rs)))).
Proof.
  intros H S. pose proof S as S0. apply long_span_iff in S.
  enter_analysis rs H. rewrite S.
  rewrite (mean_nonempty (map r_temp rs)) by (rewrite length_map; lia).
  cbn [bind]. unfold py_truediv.
  replace (Qeq_bool (Spec.elapsedHours rs) 0) with false; [reflexivity |].
  symmetry. destruct (Qeq_bool (Spec.elapsedHours rs) 0) eqn:E; [| reflexivity].
  apply Qeq_bool_iff in E. apply Qlt_bool_false_iff in S.
  rewrite E in S. exfalso. revert S. apply Qlt_not_le. reflexivity.
Qed.

(** The analysis never raises: its means are taken over non-empty
    windows and its quotient has a non-zero divisor. *)
Lemma calculate_leak_rate_returns (rs : list Reading) :
  exists r, calculate_leak_rate rs = Ret r.
Proof.
  destruct (Nat.lt_ge_cases (length rs) 60) as [F | F].
  - eexists. apply calculate_leak_rate_few, F.
  - destruct (Qlt_le_dec (Spec.elapsedSeconds rs) 360) as [S | S].
    + eexists. apply calculate_leak_rate_short_span; assumption.
    + eexists. apply calculate_leak_rate_enough; assumption.
Qed.

(** C7.  With fewer than 60 samples, or with less than six minutes between
    the first and the last sample, the analysis returns [None] (it does not
    raise); with at least 60 samples spanning at least six minutes it
    returns a result. *)
Theorem calculate_leak_rate_needs_enough_data (rs : list Reading) :
  (Spec.insufficient rs -> calculate_leak_rate rs = Ret None)
  /\ (Spec.accepted rs -> exists v, calculate_leak_rate rs = Ret (Some v)).
Proof.
  split.
  - intros [F | S].
    + apply calculate_leak_rate_few, F.
    + destruct (Nat.lt_ge_cases (length rs) 60) as [F | F].
      * apply calculate_leak_rate_few, F.
      * apply calculate_leak_rate_short_span; assumption.
  - intros [F S]. eexists. apply calculate_leak_rate_enough; assumption.
Qed.

Lemma calculate_leak_rate_needs_enough_data_witness :
  calculate_leak_rate Vectors.few_samples = Ret None
  /\ exists v, calculate_leak_rate Vectors.hour_samples = Ret (Some v).
Proof.
  split.
  - apply (calculate_leak_rate_needs_enough_data Vectors.few_samples).
    left. vm_compute. lia.
  - apply (calculate_leak_rate_needs_enough_data Vectors.hour_samples).
    split; [vm_compute; lia | vm_compute; discriminate].
Defined.








End Analyzer.

(** ** Stored samples *)

Section Samples.

Import PoolSense.

Lemma deque_append_last {A : Type} (l : list A) (x d : A) :
  List.last (deque_append READINGS_MAXLEN l x) d = x.
Proof.
  unfold deque_append.
  destruct (N.of_nat (length l) <? READINGS_MAXLEN)%N eqn:E.
  - apply last_last.
  - destruct l as [| a l'].
    + cbn in E. discriminate.
    + cbn [app tl]. apply last_last.
Qed.

Lemma deque_append_Forall {A : Type} (P : A -> Prop) (m : N) (l : list A) (x : A) :
  Forall P l -> P x -> Forall P (deque_append m l x).
Proof.
  intros Hl Hx. unfold deque_append.
  assert (F : Forall P (l ++ [x])) by (apply Forall_app; split; auto).
  destruct (N.of_nat (length l) <? m)%N; [exact F |].
  destruct (l ++ [x]); [constructor |]. inversion F; assumption.
Qed.

Lemma add_reading_keeps_stored (s : TestSession) (t p temp d : Q) :
  Forall Spec.stored (readings s) ->
  Forall Spec.stored (readings (add_reading s t p temp d)).
Proof.
  intro H. cbn [add_reading readings]. apply deque_append_Forall; [exact H |].
  repeat split; apply py_round_on_grid.
Qed.

Lemma sensor_tick_keeps_stored (w : World) (ts now : Q) (raw : MS5837.BusRead) :
  Forall Spec.stored (readings (session w)) ->
  Forall Spec.stored (readings (session (sensor_tick w ts now raw))).
Proof.
  intro H. unfold sensor_tick.
  destruct (match sensor w with
            | Some sn => let (sn', ok) := MS5837.read sn raw in (Some sn', ok)
            | None => (None, false)
            end) as [sn' ok]; cbn [fst snd].
  destruct sn' as [sn |]; destruct ok; cbn [session];
    destruct (status (session w)); try exact H;
    apply add_reading_keeps_stored; exact H.
Qed.

Lemma step_keeps_stored (w w' : World) (e : Event) :
  step w e = Some w' ->
  Forall Spec.stored (readings (session w)) ->
  Forall Spec.stored (readings (session w')).
Proof.
  intros E H. destruct e as [ts now raw | now | now | k now]; cbn [step] in E.
  - injection E as <-. apply sensor_tick_keeps_stored, H.
  - injection E as <-. constructor.
  - injection E as <-. unfold api_stop.
    destruct (calculate_leak_rate (readings (set_status (session w) complete)));
      exact H.
  - destruct (nth_error (timers w) k) as [tm |]; [| discriminate].
    destruct (Qle_bool (due tm) now); [| discriminate].
    injection E as <-. unfold switch_to_testing; cbn [session].
    destruct (Status_eqb (status (session w)) baseline); exact H.
Qed.

(** Whatever the process has been through, the samples the analysis reads
    are rounded ones. *)
Lemma run_keeps_stored (es : list Event) (w w' : World) :
  run w es = Some w' ->
  Forall Spec.stored (readings (session w)) ->
  Forall Spec.stored (readings (session w')).
Proof.
  revert w. induction es as [| e es IH]; intros w E H; cbn [run] in E.
  - injection E as <-. exact H.
  - destruct (step w e) as [w1 |] eqn:S; [| discriminate].
    apply (IH w1 E). eapply step_keeps_stored; eassumption.
Qed.

(** C10.  [add_reading] stores the time stamp as given and the pressure,
    temperature and depth rounded to 3, 2 and 2 decimal places: the stored
    values are decimals with that many places, within half a unit of the
    last place of the values handed in.  Every sample of every session the
    process ever holds has this form, and those samples are all that
    [calculate_leak_rate] reads. *)
Theorem add_reading_stores_rounded (s : TestSession) (t p temp d : Q) :
  let r := List.last (readings (add_reading s t p temp d)) (mkReading 0 0 0 0) in
  (r_t r = t /\ r_p r = py_round p 3
   /\ r_temp r = py_round temp 2 /\ r_d r = py_round d 2)
  /\ Spec.stored r
  /\ (Qabs (r_p r - p) <= (1 # 2) / pow10 3
      /\ Qabs (r_temp r - temp) <= (1 # 2) / pow10 2
      /\ Qabs (r_d r - d) <= (1 # 2) / pow10 2)
  /\ (forall sn es w, run (boot sn) es = Some w ->
        Forall Spec.stored (readings (session w))).
Proof.
  cbv zeta. cbn [add_reading readings]. rewrite deque_append_last.
  cbn [r_t r_p r_temp r_d]. split; [repeat split |]. split.
  { repeat split; apply py_round_on_grid. }
  split.
  { repeat split; apply py_round_close. }
  intros sn es w E. apply (run_keeps_stored es (boot sn) w E). constructor.
Qed.

(** A value with more digits than are kept is stored changed. *)
Example add_reading_drops_digits :
  let r := List.last (readings (add_reading new_session 1 1100.029575 20.004 887.5681))
                     (mkReading 0 0 0 0) in
  r_t r == 1 /\ r_p r == 1100.03 /\ r_temp r == 20 /\ r_d r == 887.57.
Proof. repeat split; vm_compute; reflexivity. Qed.

End Samples.

(** ** Session operations *)

Section Session.

Import PoolSense.

Lemma switch_to_testing_otherwise (w : World) :
  status (session w) <> baseline -> switch_to_testing w = w.
Proof.
  intro H. unfold switch_to_testing.
  destruct (status (session w)); cbn; congruence.
Qed.

(** C3 fails as stated: [api_start] has no state check.  Called during a
    baseline phase that already holds a sample, it answers [ok] and the
    running session is replaced. *)
Lemma api_start_replaces_running_test :
  status (session Vectors.baseline_world) = baseline
  /\ length (readings (session Vectors.baseline_world)) = 1%nat
  /\ snd (api_start Vectors.baseline_world 10) = StartReply true
  /\ session (fst (api_start Vectors.baseline_world 10))
     <> session Vectors.baseline_world
  /\ readings (session (fst (api_start Vectors.baseline_world 10))) = [].
Proof.
  repeat split.
  intro H. apply (f_equal (fun s => length (readings s))) in H.
  vm_compute in H. discriminate H.
Qed.

(** C3, as the code has it.  From every state, Idle, Baseline, Testing or
    Complete alike, [api_start] answers [ok] and binds the global to a new
    session in Baseline with [start_time = now], no samples and no
    result. *)
Theorem api_start_always_starts (w : World) (now : Q) :
  snd (api_start w now) = StartReply true
  /\ session (fst (api_start w now))
     = mkSession (Some now) [] None None baseline None
  /\ session_obj (fst (api_start w now)) = objects w
  /\ objects (fst (api_start w now)) = S (objects w).
Proof. repeat split. Qed.

(** C4 fails as stated: [api_stop] has no state check.  Called on the idle
    session of a fresh process it answers [ok] with no result, and the
    session is Complete afterwards. *)
Lemma api_stop_accepts_idle :
  status (session (boot None)) = idle
  /\ snd (api_stop (boot None) 5) = Ret (StopReply true None)
  /\ status (session (fst (api_stop (boot None) 5))) = complete
  /\ result (session (fst (api_stop (boot None) 5))) = None.
Proof. repeat split. Qed.

Lemma api_stop_always_completes_aux (w : World) (now : Q) :
  exists r, calculate_leak_rate (readings (session w)) = Ret r
    /\ session (fst (api_stop w now))
       = mkSession (start_time (session w)) (readings (session w))
                   (baseline_pressure (session w)) (baseline_temp (session w))
                   complete r.
Proof.
  destruct (calculate_leak_rate_returns (readings (session w))) as [r E].
  exists r. split; [exact E |].
  unfold api_stop. cbn [set_status readings]. rewrite E. reflexivity.
Qed.

(** C4, as the code has it.  From every state [api_stop] answers [ok]: it
    runs the analysis over the current samples, leaves the session
    Complete with that outcome as its result (absent when the data are
    insufficient), keeps the samples and the start time, and returns the
    same outcome. *)
Theorem api_stop_always_completes (w : World) (now : Q) :
  exists r, calculate_leak_rate (readings (session w)) = Ret r
    /\ snd (api_stop w now) = Ret (StopReply true r)
    /\ session (fst (api_stop w now))
       = mkSession (start_time (session w)) (readings (session w))
                   (baseline_pressure (session w)) (baseline_temp (session w))
                   complete r.
Proof.
  destruct (calculate_leak_rate_returns (readings (session w))) as [r E].
  exists r. split; [exact E |].
  unfold api_stop. cbn [set_status readings]. rewrite E. split; reflexivity.
Qed.

(** A second stop recomputes the same outcome. *)
Lemma api_stop_twice (w : World) (t1 t2 : Q) :
  session (fst (api_stop (fst (api_stop w t1)) t2))
  = session (fst (api_stop w t1)).
Proof.
  destruct (api_stop_always_completes_aux w t1) as [r [E S1]].
  destruct (api_stop_always_completes_aux (fst (api_stop w t1)) t2) as [r2 [E2 S2]].
  rewrite S2, S1. cbn [start_time readings baseline_pressure baseline_temp].
  rewrite S1 in E2. cbn [readings] in E2. congruence.
Qed.

(** C9 fails as stated: [add_reading] has no state check of its own.  On
    an idle session, and on a completed one, it stores the sample. *)
Lemma add_reading_appends_in_any_state :
  status new_session = idle
  /\ readings new_session = []
  /\ length (readings (add_reading new_session 1 1013.25 20 5)) = 1%nat
  /\ status (add_reading (set_status new_session complete) 1 1013.25 20 5)
     = complete
  /\ length (readings (add_reading (set_status new_session complete)
                                   1 1013.25 20 5)) = 1%nat.
Proof. repeat split. Qed.

Lemma sensor_tick_appends_only_when_active_aux
      (w : World) (timestamp now : Q) (raw : MS5837.BusRead) :
  (status (session w) = idle \/ status (session w) = complete ->
   session (sensor_tick w timestamp now raw) = session w)
  /\ (status (session w) = baseline \/ status (session w) = testing ->
      exists p temp d,
        session (sensor_tick w timestamp now raw)
        = add_reading (session w) timestamp p temp d).
Proof.
  unfold sensor_tick.
  destruct (match sensor w with
            | Some sn => let (sn', ok) := MS5837.read sn raw in (Some sn', ok)
            | None => (None, false)
            end) as [sn' ok]; cbn [fst snd].
  split.
  - intros [H | H]; destruct sn' as [sn |]; destruct ok; cbn [session];
      rewrite H; reflexivity.
  - intros [H | H]; destruct sn' as [sn |]; destruct ok; cbn [session];
      rewrite H; do 3 eexists; reflexivity.
Qed.

(** C9, as the code has it.  The guard is the sensor loop's: a turn of the
    loop leaves the session as it is while the state is Idle or Complete,
    and stores exactly one rounded sample, through [add_reading], while it
    is Baseline or Testing. *)
Theorem sensor_tick_appends_only_when_active
        (w : World) (timestamp now : Q) (raw : MS5837.BusRead) :
  (status (session w) = idle \/ status (session w) = complete ->
   session (sensor_tick w timestamp now raw) = session w)
  /\ (status (session w) = baseline \/ status (session w) = testing ->
      exists p temp d,
        session (sensor_tick w timestamp now raw)
        = add_reading (session w) timestamp p temp d).
Proof. exact (sensor_tick_appends_only_when_active_aux w timestamp now raw). Qed.

(** No step of the process adds a sample to an idle or completed
    session: the samples stay, or a start replaces the session by an empty
    one. *)
Lemma step_never_appends_when_inactive (w w' : World) (e : Event) :
  status (session w) = idle \/ status (session w) = complete ->
  step w e = Some w' ->
  readings (session w') = readings (session w)
  \/ readings (session w') = [].
Proof.
  intros H E. destruct e as [ts now raw | now | now | k now]; cbn [step] in E.
  - injection E as <-. left.
    rewrite (proj1 (sensor_tick_appends_only_when_active_aux w ts now raw) H).
    reflexivity.
  - injection E as <-. right. reflexivity.
  - injection E as <-. left.
    destruct (api_stop_always_completes_aux w now) as [r [_ S]].
    rewrite S. reflexivity.
  - destruct (nth_error (timers w) k) as [tm |]; [| discriminate].
    destruct (Qle_bool (due tm) now); [| discriminate].
    injection E as <-. left. rewrite switch_to_testing_otherwise; [reflexivity |].
    cbn [session]. destruct H as [H | H]; rewrite H; discriminate.
Qed.

Lemma sensor_tick_appends_only_when_active_witness :
  session (sensor_tick (boot None) 1 1 MS5837.BusError) = session (boot None)
  /\ exists p temp d,
       session (sensor_tick Vectors.baseline_world 2 2 MS5837.BusError)
       = add_reading (session Vectors.baseline_world) 2 p temp d.
Proof.
  split.
  - apply (sensor_tick_appends_only_when_active (boot None) 1 1 MS5837.BusError).
    left. reflexivity.
  - apply (sensor_tick_appends_only_when_active
             Vectors.baseline_world 2 2 MS5837.BusError).
    left. reflexivity.
Defined.

End Session.

(** ** Timers *)

Section Timers.

Import PoolSense.

(** The body of [switch_to_testing] does not know which session it was
    created for: it promotes whichever session is current. *)
Lemma switch_to_testing_promotes_current (w : World) :
  status (session w) = baseline ->
  status (session (switch_to_testing w)) = testing
  /\ session_obj (switch_to_testing w) = session_obj w.
Proof.
  intro H. unfold switch_to_testing. rewrite H. cbn. split; reflexivity.
Qed.

(** Waking a timer thread promotes the current session when it is in
    Baseline, whichever session the thread was created for. *)
Lemma wake_ignores_owner (w : World) (k : nat) (now : Q) (tm : Timer) :
  nth_error (timers w) k = Some tm ->
  due tm <= now ->
  status (session w) = baseline ->
  exists w', step w (Wake k now) = Some w'
    /\ session_obj w' = session_obj w
    /\ status (session w') = testing
    /\ start_time (session w') = start_time (session w).
Proof.
  intros Hk Hd Hs. cbn [step]. rewrite Hk.
  apply Qle_bool_iff in Hd. rewrite Hd.
  eexists. split; [reflexivity |].
  unfold switch_to_testing. cbn [session]. rewrite Hs. cbn. repeat split.
Qed.

(** C5 on the code.  Test A (object 1) is started at 0 s and stopped at
    60 s; test B (object 2) is started at 840 s, its own timer being due at
    1740 s.  When A's timer wakes at 900 s, B is in Baseline and is moved
    to Testing, 60 s into its baseline phase, by a promotion that was
    scheduled for A.  The same happens when B replaces A without a stop. *)
Theorem stale_timer_promotes_new_session :
  match run (boot None) (firstn 3 Vectors.superseded_run),
        run (boot None) Vectors.superseded_run with
  | Some before, Some after =>
      session_obj before = 2%nat
      /\ status (session before) = baseline
      /\ start_time (session before) = Some 840
      /\ map owner (timers before) = [1%nat; 2%nat]
      /\ Forall2 Qeq (map due (timers before)) [900; 1740]
      /\ session_obj after = 2%nat
      /\ status (session after) = testing
      /\ map owner (timers after) = [2%nat]
  | _, _ => False
  end
  /\ match run (boot None) Vectors.replaced_run with
     | Some after =>
         session_obj after = 2%nat
         /\ status (session after) = testing
         /\ start_time (session after) = Some 840
         /\ map owner (timers after) = [2%nat]
     | None => False
     end.
Proof.
  vm_compute. repeat split; repeat constructor.
Qed.

(** Without a newer session the guard of [switch_to_testing] does its
    work: after a stop, the timer of the stopped test changes nothing. *)
Example timer_after_stop_is_inert :
  match run (boot None) [Start 0; Stop 60], run (boot None) [Start 0; Stop 60; Wake 0 900] with
  | Some before, Some after => session after = session before
  | _, _ => False
  end.
Proof. vm_compute. reflexivity. Qed.

End Timers.

(** ** Depth *)

Section Depth.

Import PoolSense.

(** [depth_mm] is the written conversion against the constant
    1013.25 mbar. *)
Lemma depth_mm_reference (s : MS5837.Sensor) :
  MS5837.depth_mm s
  == Spec.depthMm (MS5837.pressure_mbar s) 1013.25 (MS5837.fluid_density s).
Proof. unfold MS5837.depth_mm, Spec.depthMm. reflexivity. Qed.

(** With a working sensor the stored depth is that value, rounded; the
    [baseline_offset] taken from the first reading does not enter it. *)
Lemma sensor_tick_depth (w : World) (sn : MS5837.Sensor) (ts now : Q) (d1 d2 : Z) :
  sensor w = Some sn ->
  status (session w) = baseline \/ status (session w) = testing ->
  let sn' := fst (MS5837.read sn (MS5837.BusOk d1 d2)) in
  session (sensor_tick w ts now (MS5837.BusOk d1 d2))
  = add_reading (session w) ts (MS5837.pressure sn') (MS5837.temperature sn')
                (MS5837.depth_mm sn').
Proof.
  intros Hs Hst. cbv zeta. unfold sensor_tick. rewrite Hs.
  cbn [MS5837.read fst snd session].
  destruct Hst as [H | H]; rewrite H; reflexivity.
Qed.

(** The offset recorded at the first reading is never read: two processes
    that differ in it alone store the same sample. *)
Lemma baseline_offset_is_never_read
      (w : World) (o : option Q) (ts now : Q) (raw : MS5837.BusRead) :
  session (sensor_tick (mkWorld (session w) (session_obj w) (objects w)
                                (sensor w) o (timers w) (files w)) ts now raw)
  = session (sensor_tick w ts now raw).
Proof.
  unfold sensor_tick. cbn [sensor session baseline_offset].
  destruct (match sensor w with
            | Some sn => let (sn', ok) := MS5837.read sn raw in (Some sn', ok)
            | None => (None, false)
            end) as [sn' ok]; cbn [fst snd].
  destruct sn' as [sn |]; destruct ok; reflexivity.
Qed.

(** C6 on the code.  The first successful reading of a process yields
    1100.0296 mbar.  Measured against that same reading the depth would be
    0; the stored depth is 887.57 mm, the depth against 1013.25 mbar.  The
    loop does record [baseline_offset = pressure - 1013.25], and nothing
    reads it. *)
Theorem first_reading_depth_is_not_zero :
  match sensor Vectors.first_reading_world,
        readings (session Vectors.first_reading_world) with
  | Some sn, [r] =>
      MS5837.pressure sn == 1802288457 # 1638400
      /\ MS5837.fluid_density sn == Spec.FRESHWATER
      /\ r_p r == 1100.03
      /\ r_d r == 887.57
      /\ r_d r == py_round (Spec.depthMm (MS5837.pressure sn) 1013.25
                                          Spec.FRESHWATER) 2
      /\ py_round (Spec.depthMm (MS5837.pressure sn) (MS5837.pressure sn)
                                Spec.FRESHWATER) 2 == 0
      /\ match baseline_offset Vectors.first_reading_world with
         | Some o => o == MS5837.pressure sn - 1013.25
         | None => False
         end
  | _, _ => False
  end.
Proof. vm_compute. repeat split. Qed.

(** In demo mode the stored depth is a simulated ramp, not a conversion
    of the simulated pressure. *)
Example demo_depth_is_simulated :
  match readings (session Vectors.baseline_world) with
  | [r] => r_p r == 1113.25 /\ r_d r == 1000
           /\ ~ r_d r == py_round (Spec.depthMm (r_p r) 1013.25 Spec.FRESHWATER) 2
  | _ => False
  end.
Proof. vm_compute. repeat split. intro H; discriminate H. Qed.

End Depth.

(** * Further properties of the code *)

(** ** Bus words *)

Section BusWords.

Import MS5837.
Local Open Scope Z_scope.

Lemma testbit_above (a m : Z) : 0 <= a < 2 ^ m -> 0 <= m -> Z.testbit a m = false.
Proof.
  intros [Ha Hlt] Hm. destruct (Z.eq_dec a 0) as [-> | Hne].
  - apply Z.bits_0.
  - apply Z.bits_above_log2; [exact Ha |].
    apply Z.log2_lt_pow2; lia.
Qed.

(** Joining a shifted high part and a low part that fits below it is an
    addition. *)
Lemma lor_shiftl_add (hi lo n : Z) :
  0 <= n -> 0 <= lo < 2 ^ n -> Z.lor (Z.shiftl hi n) lo = hi * 2 ^ n + lo.
Proof.
  intros Hn Hlo.
  assert (D : Z.land (Z.shiftl hi n) lo = 0).
  { apply Z.bits_inj'. intros m Hm. rewrite Z.land_spec, Z.bits_0.
    destruct (Z.lt_ge_cases m n) as [L | G].
    - rewrite Z.shiftl_spec_low by exact L. reflexivity.
    - rewrite (testbit_above lo m), andb_false_r; [reflexivity | | exact Hm].
      split; [lia |]. apply Z.lt_le_trans with (2 ^ n); [lia |].
      apply Z.pow_le_mono_r; lia. }
  rewrite <- Z.lxor_lor by exact D.
  rewrite <- Z.add_nocarry_lxor by exact D.
  rewrite Z.shiftl_mul_pow2 by exact Hn. reflexivity.
Qed.

Lemma prom_word_sum (hi lo : Z) :
  byte hi -> byte lo -> prom_word (hi, lo) = 256 * hi + lo.
Proof.
  unfold byte, prom_word. intros Hh Hl. cbn [fst snd].
  rewrite lor_shiftl_add; [| lia | change (2 ^ 8) with 256; lia].
  change (2 ^ 8) with 256. lia.
Qed.

(** X1.  A PROM word assembled from two bus bytes is [256 * hi + lo], an
    unsigned 16-bit value from which both bytes can be read back. *)
Theorem prom_word_bytes (hi lo : Z) :
  byte hi -> byte lo ->
  prom_word (hi, lo) = 256 * hi + lo
  /\ uint16 (prom_word (hi, lo))
  /\ Z.shiftr (prom_word (hi, lo)) 8 = hi
  /\ Z.land (prom_word (hi, lo)) 255 = lo.
Proof.
  intros Hh Hl. rewrite (prom_word_sum hi lo Hh Hl).
  unfold byte, uint16 in *. repeat split; try lia.
  - rewrite Z.shiftr_div_pow2 by lia. change (2 ^ 8) with 256.
    rewrite Z.mul_comm, Z.div_add_l by lia. rewrite Z.div_small by lia. lia.
  - change 255 with (Z.ones 8). rewrite Z.land_ones by lia.
    change (2 ^ 8) with 256.
    rewrite Z.add_comm, Z.mul_comm, Z.mod_add by lia. apply Z.mod_small. lia.
Qed.

Lemma prom_word_bytes_witness :
  prom_word (181, 36) = 256 * 181 + 36
  /\ uint16 (prom_word (181, 36))
  /\ Z.shiftr (prom_word (181, 36)) 8 = 181
  /\ Z.land (prom_word (181, 36)) 255 = 36.
Proof.
  apply (prom_word_bytes 181 36); unfold byte; lia.
Defined.

Lemma adc_value_sum (b0 b1 b2 : Z) :
  byte b0 -> byte b1 -> byte b2 ->
  adc_value (b0, b1, b2) = 65536 * b0 + 256 * b1 + b2.
Proof.
  unfold byte, adc_value. intros H0 H1 H2.
  assert (E1 : Z.lor (Z.shiftl b0 16) (Z.shiftl b1 8) = b0 * 2 ^ 16 + b1 * 256).
  { rewrite (Z.shiftl_mul_pow2 b1 8) by lia. change (2 ^ 8) with 256.
    rewrite lor_shiftl_add; [| lia | change (2 ^ 16) with 65536; lia].
    reflexivity. }
  rewrite E1.
  replace (b0 * 2 ^ 16 + b1 * 256) with (Z.shiftl (b0 * 256 + b1) 8)
    by (rewrite Z.shiftl_mul_pow2 by lia;
        change (2 ^ 8) with 256; change (2 ^ 16) with 65536; lia).
  rewrite lor_shiftl_add; [| lia | change (2 ^ 8) with 256; lia].
  change (2 ^ 8) with 256. lia.
Qed.

(** X2.  An ADC result assembled from three bus bytes is
    [65536 * b0 + 256 * b1 + b2], an unsigned 24-bit value; different byte
    triples give different results. *)
Theorem adc_value_bytes (b0 b1 b2 : Z) :
  byte b0 -> byte b1 -> byte b2 ->
  adc_value (b0, b1, b2) = 65536 * b0 + 256 * b1 + b2
  /\ uint24 (adc_value (b0, b1, b2))
  /\ (forall c0 c1 c2, byte c0 -> byte c1 -> byte c2 ->
        adc_value (c0, c1, c2) = adc_value (b0, b1, b2) ->
        (c0, c1, c2) = (b0, b1, b2)).
Proof.
  intros H0 H1 H2. rewrite (adc_value_sum b0 b1 b2 H0 H1 H2).
  split; [reflexivity |]. split.
  - unfold byte, uint24 in *. lia.
  - intros c0 c1 c2 K0 K1 K2 E. rewrite (adc_value_sum c0 c1 c2 K0 K1 K2) in E.
    unfold byte in *. repeat f_equal; lia.
Qed.

Lemma adc_value_bytes_witness :
  adc_value (98, 167, 100) = 65536 * 98 + 256 * 167 + 100
  /\ uint24 (adc_value (98, 167, 100))
  /\ (forall c0 c1 c2, byte c0 -> byte c1 -> byte c2 ->
        adc_value (c0, c1, c2) = adc_value (98, 167, 100) ->
        (c0, c1, c2) = (98, 167, 100)).
Proof.
  apply (adc_value_bytes 98 167 100); unfold byte; lia.
Defined.

(** The loop of [_initialize] fills slots 0 to 6 and leaves slot 7 at 0. *)
Lemma initialize_slots (prom : nat -> Z * Z) :
  _initialize prom
  = [prom_word (prom 0%nat); prom_word (prom 1%nat); prom_word (prom 2%nat);
     prom_word (prom 3%nat); prom_word (prom 4%nat); prom_word (prom 5%nat);
     prom_word (prom 6%nat); 0].
Proof. reflexivity. Qed.

(** X3.  When every PROM block consists of bytes, the calibration list
    built by [_initialize] has eight unsigned 16-bit slots, so every
    successful byte-wise [read] of such a sensor runs [_calculate] on
    24-bit counts and 16-bit coefficients. *)
Theorem initialize_gives_valid_calibration (prom : nat -> Z * Z) (p t : Z * Z * Z) :
  (forall i, (i < 7)%nat -> byte (fst (prom i)) /\ byte (snd (prom i))) ->
  (let '(b0, b1, b2) := p in byte b0 /\ byte b1 /\ byte b2) ->
  (let '(b0, b1, b2) := t in byte b0 /\ byte b1 /\ byte b2) ->
  calibration_ok (C (new_sensor prom))
  /\ (forall i, (i < 7)%nat ->
        coef (C (new_sensor prom)) i
        = 256 * fst (prom i) + snd (prom i))
  /\ coef (C (new_sensor prom)) 7 = 0
  /\ let s' := fst (read_bytes (new_sensor prom) p t) in
     snd (read_bytes (new_sensor prom) p t) = true
     /\ uint24 (D1 s') /\ uint24 (D2 s') /\ calibration_ok (C s').
Proof.
  intros Hp Hd1 Hd2.
  assert (W : forall i, (i < 7)%nat ->
                prom_word (prom i) = 256 * fst (prom i) + snd (prom i)).
  { intros i Hi. destruct (Hp i Hi) as [A B]. destruct (prom i) as [hi lo].
    apply prom_word_sum; assumption. }
  assert (U : forall i, (i < 7)%nat -> uint16 (prom_word (prom i))).
  { intros i Hi. rewrite (W i Hi). destruct (Hp i Hi) as [A B].
    unfold byte, uint16 in *. lia. }
  assert (K : calibration_ok (C (new_sensor prom))).
  { cbn [new_sensor C]. rewrite initialize_slots. split; [reflexivity |].
    repeat constructor; try (apply U; lia); unfold uint16; lia. }
  split; [exact K |]. split.
  { intros i Hi. cbn [new_sensor C]. rewrite initialize_slots. unfold coef.
    do 7 (destruct i as [| i]; [cbn [nth]; apply W; lia |]). lia. }
  split; [reflexivity |].
  destruct p as [[p0 p1] p2], t as [[t0 t1] t2].
  destruct Hd1 as [? [? ?]], Hd2 as [? [? ?]].
  cbv zeta. unfold read_bytes. cbn [read fst snd _calculate D1 D2 C].
  split; [reflexivity |].
  split; [rewrite adc_value_sum by assumption; unfold byte, uint24 in *; lia |].
  split; [rewrite adc_value_sum by assumption; unfold byte, uint24 in *; lia
         | exact K].
Qed.

Lemma initialize_gives_valid_calibration_witness :
  calibration_ok (C (new_sensor (fun _ => (181, 36))))
  /\ (forall i, (i < 7)%nat ->
        coef (C (new_sensor (fun _ => (181, 36)))) i = 256 * 181 + 36)
  /\ coef (C (new_sensor (fun _ => (181, 36)))) 7 = 0
  /\ snd (read_bytes (new_sensor (fun _ => (181, 36))) (98, 167, 100) (123, 65, 4))
     = true
  /\ uint24 (D1 (fst (read_bytes (new_sensor (fun _ => (181, 36)))
                                 (98, 167, 100) (123, 65, 4))))
  /\ uint24 (D2 (fst (read_bytes (new_sensor (fun _ => (181, 36)))
                                 (98, 167, 100) (123, 65, 4))))
  /\ calibration_ok (C (fst (read_bytes (new_sensor (fun _ => (181, 36)))
                                        (98, 167, 100) (123, 65, 4)))).
Proof.
  apply (initialize_gives_valid_calibration
           (fun _ => (181, 36)) (98, 167, 100) (123, 65, 4)).
  - intros i _. unfold byte; cbn; lia.
  - unfold byte; lia.
  - unfold byte; lia.
Defined.

End BusWords.

(** ** Ranges of the compensation arithmetic *)

Section CompensationRanges.

Import MS5837.
Local Open Scope Z_scope.

Lemma coef_uint16 (c : list Z) (i : nat) : Forall uint16 c -> uint16 (coef c i).
Proof.
  intro F. unfold coef. revert i.
  induction F as [| x l Hx _ IH]; intros [| i]; cbn [nth];
    try (unfold uint16; lia); [exact Hx | apply IH].
Qed.

Lemma floordiv_between (a b lo hi : Z) :
  0 < b -> lo <= a <= hi -> lo / b <= py_floordiv a b <= hi / b.
Proof.
  intros Hb [L H]. unfold py_floordiv.
  split; apply Z.div_le_mono; lia.
Qed.

Ltac div_range P b B :=
  pose proof (floordiv_between _ b _ _ ltac:(lia) P) as B;
  match type of B with
  | ?lo / ?d <= _ <= ?hi / ?e =>
      let l := eval vm_compute in (lo / d) in
      let h := eval vm_compute in (hi / e) in
      change (lo / d) with l in B; change (hi / e) with h in B
  end.

Section Ranges.

Variables (d1 d2 : Z) (c : list Z).
Hypothesis Hd1 : uint24 d1.
Hypothesis Hd2 : uint24 d2.
Hypothesis Hc : calibration_ok c.

Lemma dT_range : - 16776960 <= dT d2 c <= 16777215.
Proof.
  unfold dT. pose proof (coef_uint16 c 5 (proj2 Hc)) as K. unfold uint16, uint24 in *. lia.
Qed.

Lemma prod_range (x y : Z) :
  0 <= x <= 65535 -> - 16776960 <= y <= 16777215 ->
  - 1099478073600 <= x * y <= 1099494785025.
Proof. intros Hx Hy. nia. Qed.

Lemma Ti_range : 2000 - 131069 <= Ti d2 c <= 2000 + 131069.
Proof.
  unfold Ti. pose proof (coef_uint16 c 6 (proj2 Hc)) as K. pose proof dT_range as D.
  assert (P : - 1099478073600 <= dT d2 c * coef c 6 <= 1099494785025)
    by (rewrite Z.mul_comm; apply prod_range; unfold uint16 in K; lia).
  div_range P 8388608 B. lia.
Qed.

Lemma SENS_1_range : - 8589672450 <= SENS_1 d2 c <= 4294901760 + 8589803008.
Proof.
  unfold SENS_1. pose proof (coef_uint16 c 1 (proj2 Hc)) as K1. pose proof (coef_uint16 c 3 (proj2 Hc)) as K3.
  pose proof dT_range as D.
  assert (P : - 1099478073600 <= coef c 3 * dT d2 c <= 1099494785025)
    by (apply prod_range; unfold uint16 in K3; lia).
  div_range P 128 B.
  unfold uint16 in K1. lia.
Qed.

Lemma OFF_1_range : - 17179344900 <= OFF_1 d2 c <= 8589803520 + 17179606016.
Proof.
  unfold OFF_1. pose proof (coef_uint16 c 2 (proj2 Hc)) as K2. pose proof (coef_uint16 c 4 (proj2 Hc)) as K4.
  pose proof dT_range as D.
  assert (P : - 1099478073600 <= coef c 4 * dT d2 c <= 1099494785025)
    by (apply prod_range; unfold uint16 in K4; lia).
  div_range P 64 B.
  unfold uint16 in K2. lia.
Qed.

Lemma square_range : 0 <= (Ti d2 c - 2000) ^ 2 <= 17179082761.
Proof. pose proof Ti_range as T. nia. Qed.

Lemma T2_range : 0 <= T2 d2 c <= 90111.
Proof.
  unfold T2. destruct (Ti d2 c <? 2000); [| lia].
  pose proof dT_range as D.
  assert (P : 0 <= 11 * (dT d2 c * dT d2 c) <= 11 * 281474943156225) by nia.
  div_range P 34359738368 B. lia.
Qed.

Lemma OFF2_range : 0 <= OFF2 d2 c <= 66568945698.
Proof.
  unfold OFF2. destruct (Ti d2 c <? 2000); [| lia].
  pose proof square_range as S.
  assert (P : 0 <= 31 * (Ti d2 c - 2000) ^ 2 <= 31 * 17179082761) by lia.
  div_range P 8 B. lia.
Qed.

Lemma SENS2_range : 0 <= SENS2 d2 c <= 33821319185.
Proof.
  unfold SENS2. destruct (Ti d2 c <? 2000); [| lia].
  pose proof square_range as S.
  assert (P : 0 <= 63 * (Ti d2 c - 2000) ^ 2 <= 63 * 17179082761) by lia.
  div_range P 32 B. lia.
Qed.

Lemma SENS_range : - 42410991635 <= SENS d2 c <= 12884704768.
Proof.
  unfold SENS. pose proof SENS_1_range. pose proof SENS2_range. lia.
Qed.

Lemma OFF_range : - 83748290598 <= OFF d2 c <= 25769409536.
Proof.
  unfold OFF. pose proof OFF_1_range. pose proof OFF2_range. lia.
Qed.

Lemma D1_SENS_range :
  - 16777215 * 42410991635 <= d1 * SENS d2 c <= 16777215 * 12884704768.
Proof. pose proof SENS_range as S. unfold uint24 in Hd1. nia. Qed.

End Ranges.

(** X4.  For 24-bit counts and 16-bit coefficients every product and every
    intermediate of [_calculate] lies in the signed 64-bit range (several
    exceed 32 bits), the first-order temperature [Ti] stays within 131069
    hundredths of a degree of 2000, and the integer handed to the float
    divisions is below 2 ^ 39 in magnitude. *)
Theorem calculate_fits_int64 (d1 d2 : Z) (c : list Z) :
  uint24 d1 -> uint24 d2 -> calibration_ok c ->
  Spec.int64 (coef c 3 * dT d2 c) /\ Spec.int64 (coef c 4 * dT d2 c)
  /\ Spec.int64 (dT d2 c * coef c 6) /\ Spec.int64 (11 * (dT d2 c * dT d2 c))
  /\ Spec.int64 (31 * (Ti d2 c - 2000) ^ 2) /\ Spec.int64 (63 * (Ti d2 c - 2000) ^ 2)
  /\ Spec.int64 (d1 * SENS d2 c)
  /\ - 131069 <= Ti d2 c - 2000 <= 131069
  /\ - 2 ^ 39 < P_int d1 d2 c < 2 ^ 39.
Proof.
  intros Hd1 Hd2 Hc.
  pose proof (dT_range d2 c Hd2 Hc) as D.
  pose proof (Ti_range d2 c Hd2 Hc) as T.
  pose proof (square_range d2 c Hd2 Hc) as S.
  pose proof (D1_SENS_range d1 d2 c Hd1 Hd2 Hc) as DS.
  pose proof (OFF_range d2 c Hd2 Hc) as O.
  pose proof (coef_uint16 c 3 (proj2 Hc)) as K3.
  pose proof (coef_uint16 c 4 (proj2 Hc)) as K4.
  pose proof (coef_uint16 c 6 (proj2 Hc)) as K6.
  unfold uint16 in *.
  pose proof (prod_range (coef c 3) (dT d2 c) ltac:(lia) D) as P3.
  pose proof (prod_range (coef c 4) (dT d2 c) ltac:(lia) D) as P4.
  pose proof (prod_range (coef c 6) (dT d2 c) ltac:(lia) D) as P6.
  rewrite (Z.mul_comm (coef c 6)) in P6.
  assert (Q : 0 <= dT d2 c * dT d2 c <= 281474943156225) by nia.
  unfold Spec.int64. change (2 ^ 63) with 9223372036854775808.
  change (2 ^ 39) with 549755813888.
  repeat split; try lia.
  - unfold P_int. div_range DS 2097152 B. lia.
  - unfold P_int. div_range DS 2097152 B. lia.
Qed.

Lemma calculate_fits_int64_witness :
  let d1 := D1 Vectors.warm_sensor in
  let d2 := D2 Vectors.warm_sensor in
  let c := C Vectors.warm_sensor in
  Spec.int64 (coef c 3 * dT d2 c) /\ Spec.int64 (coef c 4 * dT d2 c)
  /\ Spec.int64 (dT d2 c * coef c 6) /\ Spec.int64 (11 * (dT d2 c * dT d2 c))
  /\ Spec.int64 (31 * (Ti d2 c - 2000) ^ 2) /\ Spec.int64 (63 * (Ti d2 c - 2000) ^ 2)
  /\ Spec.int64 (d1 * SENS d2 c)
  /\ - 131069 <= Ti d2 c - 2000 <= 131069
  /\ - 2 ^ 39 < P_int d1 d2 c < 2 ^ 39.
Proof.
  apply (calculate_fits_int64 (D1 Vectors.warm_sensor) (D2 Vectors.warm_sensor)
                              (C Vectors.warm_sensor)).
  - unfold uint24; cbn; lia.
  - unfold uint24; cbn; lia.
  - split; [reflexivity |]. cbn; repeat constructor; unfold uint16; lia.
Defined.

End CompensationRanges.

(** ** Second-order correction and monotonicity *)

Section SecondOrder.

Import MS5837.

Lemma Qdiv100_le (a b : Z) :
  (a <= b)%Z -> inject_Z a / 100 <= inject_Z b / 100.
Proof.
  intro H. apply Qmult_le_compat_r; [| discriminate].
  rewrite <- Zle_Qle. exact H.
Qed.

Lemma T2_nonneg (d2 : Z) (c : list Z) : (0 <= T2 d2 c)%Z.
Proof.
  unfold T2. destruct (Ti d2 c <? 2000)%Z; [| lia].
  apply Z.div_pos; nia.
Qed.

(** X5.  The second-order terms are never negative, so the stored
    temperature is never above the first-order one; and when [dT >= 0]
    (non-negative coefficients) they all vanish: the temperature is at least
    20.00 degrees and is exactly [Ti / 100], and the pressure integer is the
    first-order one. *)
Theorem second_order_only_lowers (s : Sensor) :
  calibration_ok (C s) ->
  let d2 := D2 s in let c := C s in
  ((0 <= T2 d2 c)%Z /\ (0 <= OFF2 d2 c)%Z /\ (0 <= SENS2 d2 c)%Z)
  /\ temperature_c (_calculate s) <= inject_Z (Ti d2 c) / 100
  /\ ((0 <= dT d2 c)%Z ->
      T2 d2 c = 0%Z /\ OFF2 d2 c = 0%Z /\ SENS2 d2 c = 0%Z
      /\ 20 <= temperature_c (_calculate s)
      /\ temperature_c (_calculate s) == inject_Z (Ti d2 c) / 100
      /\ P_int (D1 s) d2 c
         = (py_floordiv (D1 s * SENS_1 d2 c) 2097152 - OFF_1 d2 c)%Z).
Proof.
  intros [_ Hc]. cbv zeta.
  assert (N : (0 <= T2 (D2 s) (C s))%Z /\ (0 <= OFF2 (D2 s) (C s))%Z
              /\ (0 <= SENS2 (D2 s) (C s))%Z).
  { split; [apply T2_nonneg |]. unfold OFF2, SENS2.
    destruct (Ti (D2 s) (C s) <? 2000)%Z; [| lia].
    split; apply Z.div_pos; nia. }
  split; [exact N |]. split.
  { cbn [_calculate temperature_c].
    assert (E : inject_Z (Ti (D2 s) (C s)) / 100 - inject_Z (T2 (D2 s) (C s)) / 100
                == inject_Z (Ti (D2 s) (C s) - T2 (D2 s) (C s)) / 100)
      by (unfold Z.sub; rewrite inject_Z_plus, inject_Z_opp; field).
    rewrite E. apply Qdiv100_le. lia. }
  intro HdT.
  assert (G : (2000 <= Ti (D2 s) (C s))%Z).
  { unfold Ti. pose proof (coef_nonneg (C s) 6 Hc) as K6.
    assert (0 <= py_floordiv (dT (D2 s) (C s) * coef (C s) 6) 8388608)%Z
      by (apply Z.div_pos; [apply Z.mul_nonneg_nonneg; assumption | lia]).
    lia. }
  assert (L : (Ti (D2 s) (C s) <? 2000)%Z = false) by (apply Z.ltb_ge; exact G).
  assert (Z2 : T2 (D2 s) (C s) = 0%Z) by (unfold T2; rewrite L; reflexivity).
  assert (ZO : OFF2 (D2 s) (C s) = 0%Z) by (unfold OFF2; rewrite L; reflexivity).
  assert (ZS : SENS2 (D2 s) (C s) = 0%Z) by (unfold SENS2; rewrite L; reflexivity).
  assert (E : temperature_c (_calculate s) == inject_Z (Ti (D2 s) (C s)) / 100).
  { cbn [_calculate temperature_c]. rewrite Z2. field. }
  repeat split; try assumption.
  - rewrite E. apply Qle_trans with (inject_Z 2000 / 100);
      [vm_compute; discriminate | apply Qdiv100_le; exact G].
  - unfold P_int, SENS, OFF. rewrite ZO, ZS, !Z.sub_0_r. reflexivity.
Qed.

Lemma second_order_only_lowers_witness :
  let d2 := D2 Vectors.warm_sensor in let c := C Vectors.warm_sensor in
  ((0 <= T2 d2 c)%Z /\ (0 <= OFF2 d2 c)%Z /\ (0 <= SENS2 d2 c)%Z)
  /\ temperature_c (_calculate Vectors.warm_sensor) <= inject_Z (Ti d2 c) / 100
  /\ ((0 <= dT d2 c)%Z ->
      T2 d2 c = 0%Z /\ OFF2 d2 c = 0%Z /\ SENS2 d2 c = 0%Z
      /\ 20 <= temperature_c (_calculate Vectors.warm_sensor)
      /\ temperature_c (_calculate Vectors.warm_sensor) == inject_Z (Ti d2 c) / 100
      /\ P_int (D1 Vectors.warm_sensor) d2 c
         = (py_floordiv (D1 Vectors.warm_sensor * SENS_1 d2 c) 2097152
            - OFF_1 d2 c)%Z).
Proof.
  apply (second_order_only_lowers Vectors.warm_sensor).
  split; [reflexivity |]. cbn; repeat constructor; unfold uint16; lia.
Defined.

(** X6.  With the temperature count and the calibration fixed, and a
    non-negative sensitivity [SENS], the stored pressure does not decrease
    when the raw pressure count grows. *)
Theorem pressure_monotone_in_D1 (s : Sensor) (d1' : Z) :
  (0 <= SENS (D2 s) (C s))%Z -> (D1 s <= d1')%Z ->
  pressure_mbar (_calculate s)
  <= pressure_mbar (_calculate (mkSensor (C s) d1' (D2 s) (pressure_mbar s)
                                          (temperature_c s) (fluid_density s))).
Proof.
  intros HS Hd. cbn [_calculate pressure_mbar C D1 D2].
  apply Qmult_le_compat_r; [| discriminate].
  apply Qmult_le_compat_r; [| discriminate].
  rewrite <- Zle_Qle. unfold P_int, py_floordiv.
  apply Z.sub_le_mono_r. apply Z.div_le_mono; [lia |].
  apply Z.mul_le_mono_nonneg_r; assumption.
Qed.

Lemma pressure_monotone_in_D1_witness :
  pressure_mbar (_calculate Vectors.warm_sensor)
  <= pressure_mbar (_calculate
       (mkSensor (C Vectors.warm_sensor) 6500000 (D2 Vectors.warm_sensor)
                 (pressure_mbar Vectors.warm_sensor)
                 (temperature_c Vectors.warm_sensor)
                 (fluid_density Vectors.warm_sensor))).
Proof.
  apply (pressure_monotone_in_D1 Vectors.warm_sensor 6500000).
  - vm_compute. discriminate.
  - vm_compute. discriminate.
Defined.

End SecondOrder.

(** ** Depth conversion *)

Section DepthConversion.

Import MS5837.

Lemma depth_mm_scaled (s : Sensor) :
  ~ fluid_density s == 0 ->
  depth_mm s
  == (pressure_mbar s - 1013.25) * (100000 / (fluid_density s * 9.80665)).
Proof. intro H. unfold depth_mm. field. exact H. Qed.

(** X7.  For a positive fluid density [depth_mm] is zero at 1013.25 mbar
    and increases with the pressure; the difference of two depths depends
    on the pressure difference alone,
    [(p2 - p1) * 100000 / (density * 9.80665)]. *)
Theorem depth_mm_linear (c : list Z) (d1 d2 : Z) (t rho p1 p2 : Q) :
  0 < rho ->
  let s1 := mkSensor c d1 d2 p1 t rho in
  let s2 := mkSensor c d1 d2 p2 t rho in
  depth_mm (mkSensor c d1 d2 1013.25 t rho) == 0
  /\ depth_mm s2 - depth_mm s1 == (p2 - p1) * (100000 / (rho * 9.80665))
  /\ (p1 <= p2 -> depth_mm s1 <= depth_mm s2)
  /\ (p1 < p2 -> depth_mm s1 < depth_mm s2).
Proof.
  intro Hrho. cbv zeta.
  assert (NZ : ~ rho == 0) by (intro E; rewrite E in Hrho; inversion Hrho).
  assert (K : 0 < 100000 / (rho * 9.80665)).
  { apply Qlt_shift_div_l.
    - apply (Qmult_lt_compat_r 0 rho 9.80665) in Hrho; [| reflexivity].
      rewrite Qmult_0_l in Hrho. exact Hrho.
    - rewrite Qmult_0_l. reflexivity. }
  rewrite !depth_mm_scaled by exact NZ. cbn [pressure_mbar fluid_density].
  set (k := 100000 / (rho * 9.80665)) in *.
  split; [| split; [| split]].
  - ring.
  - ring.
  - intro H. apply Qmult_le_compat_r; [lra | apply Qlt_le_weak, K].
  - intro H. apply Qmult_lt_compat_r; [exact K | lra].
Qed.

Lemma depth_mm_linear_witness :
  depth_mm (mkSensor [] 0 0 1013.25 20 997) == 0
  /\ depth_mm (mkSensor [] 0 0 1100 20 997) - depth_mm (mkSensor [] 0 0 1050 20 997)
     == (1100 - 1050) * (100000 / (997 * 9.80665))
  /\ (1050 <= 1100 ->
      depth_mm (mkSensor [] 0 0 1050 20 997) <= depth_mm (mkSensor [] 0 0 1100 20 997))
  /\ (1050 < 1100 ->
      depth_mm (mkSensor [] 0 0 1050 20 997) < depth_mm (mkSensor [] 0 0 1100 20 997)).
Proof.
  apply (depth_mm_linear [] 0 0 20 997 1050 1100). reflexivity.
Defined.

End DepthConversion.

(** ** The sample buffer *)

Section Buffer.

Import PoolSense.

Lemma deque_append_length {A : Type} (m : N) (l : list A) (x : A) :
  (0 < m)%N -> (N.of_nat (length l) <= m)%N ->
  (N.of_nat (length (deque_append m l x)) <= m)%N.
Proof.
  intros Hm Hl. unfold deque_append.
  destruct (N.ltb_spec (N.of_nat (length l)) m) as [L | G].
  - rewrite length_app. cbn [length]. lia.
  - destruct l as [| a l']; cbn [app tl length] in *; [lia |].
    rewrite length_app. cbn [length]. lia.
Qed.

(** X8.  A session's buffer holds at most 86400 samples.  Below that size
    [add_reading] appends the rounded sample at the end; at that size it
    drops the oldest sample and appends, keeping the others in order. *)
Theorem add_reading_fifo (s : TestSession) (t p temp d : Q) :
  (N.of_nat (length (readings s)) <= READINGS_MAXLEN)%N ->
  let r := mkReading t (py_round p 3) (py_round temp 2) (py_round d 2) in
  let s' := add_reading s t p temp d in
  (N.of_nat (length (readings s')) <= READINGS_MAXLEN)%N
  /\ ((N.of_nat (length (readings s)) < READINGS_MAXLEN)%N ->
      readings s' = readings s ++ [r])
  /\ (N.of_nat (length (readings s)) = READINGS_MAXLEN ->
      readings s' = tl (readings s) ++ [r]
      /\ length (readings s') = length (readings s)).
Proof.
  intro H. cbv zeta. cbn [add_reading readings]. split; [| split].
  - apply deque_append_length; [reflexivity | exact H].
  - intro L. unfold deque_append. apply N.ltb_lt in L. rewrite L. reflexivity.
  - intro E. unfold deque_append.
    replace (N.of_nat (length (readings s)) <? READINGS_MAXLEN)%N with false
      by (symmetry; apply N.ltb_ge; lia).
    destruct (readings s) as [| a l'] eqn:R.
    + cbn in E. discriminate E.
    + cbn [app tl]. split; [reflexivity |].
      rewrite length_app. cbn [length]. lia.
Qed.

Lemma add_reading_fifo_witness :
  let s := add_reading new_session 1 1013.25 20 5 in
  let r := mkReading 2 (py_round 1013.25 3) (py_round 20 2) (py_round 4 2) in
  let s' := add_reading s 2 1013.25 20 4 in
  (N.of_nat (length (readings s')) <= READINGS_MAXLEN)%N
  /\ ((N.of_nat (length (readings s)) < READINGS_MAXLEN)%N ->
      readings s' = readings s ++ [r])
  /\ (N.of_nat (length (readings s)) = READINGS_MAXLEN ->
      readings s' = tl (readings s) ++ [r]
      /\ length (readings s') = length (readings s)).
Proof.
  apply (add_reading_fifo (add_reading new_session 1 1013.25 20 5) 2 1013.25 20 4).
  vm_compute. discriminate.
Defined.

(** The eviction itself, on a buffer of capacity 3. *)
Example deque_append_evicts :
  deque_append 3 [1; 2; 3]%Z 4%Z = [2; 3; 4]%Z
  /\ deque_append 3 [1; 2]%Z 3%Z = [1; 2; 3]%Z.
Proof. split; reflexivity. Qed.

Lemma sensor_tick_length (w : World) (ts now : Q) (raw : MS5837.BusRead) :
  (N.of_nat (length (readings (session w))) <= READINGS_MAXLEN)%N ->
  (N.of_nat (length (readings (session (sensor_tick w ts now raw))))
   <= READINGS_MAXLEN)%N.
Proof.
  intro H.
  destruct (sensor_tick_appends_only_when_active_aux w ts now raw) as [I A].
  destruct (status (session w)) eqn:S.
  - rewrite I by (left; reflexivity). exact H.
  - destruct A as [p [temp [d E]]]; [left; reflexivity |]. rewrite E.
    cbn [add_reading readings]. apply deque_append_length; [reflexivity | exact H].
  - destruct A as [p [temp [d E]]]; [right; reflexivity |]. rewrite E.
    cbn [add_reading readings]. apply deque_append_length; [reflexivity | exact H].
  - rewrite I by (right; reflexivity). exact H.
Qed.

Lemma step_length (w w' : World) (e : Event) :
  step w e = Some w' ->
  (N.of_nat (length (readings (session w))) <= READINGS_MAXLEN)%N ->
  (N.of_nat (length (readings (session w'))) <= READINGS_MAXLEN)%N.
Proof.
  intros E H. destruct e as [ts now raw | now | now | k now]; cbn [step] in E.
  - injection E as <-. apply sensor_tick_length, H.
  - injection E as <-. cbn. lia.
  - injection E as <-.
    destruct (api_stop_always_completes_aux w now) as [r [_ S]].
    rewrite S. exact H.
  - destruct (nth_error (timers w) k) as [tm |]; [| discriminate].
    destruct (Qle_bool (due tm) now); [| discriminate].
    injection E as <-. unfold switch_to_testing; cbn [session].
    destruct (Status_eqb (status (session w)) baseline); exact H.
Qed.

(** X9.  Whatever requests, sensor turns and timer wake-ups a process goes
    through, in any order, its current session never holds more than 86400
    samples. *)
Theorem readings_never_exceed_capacity (w : World) :
  Aux.reachable w ->
  (N.of_nat (length (readings (session w))) <= READINGS_MAXLEN)%N.
Proof.
  intros [sn [es E]].
  assert (G : forall es w0 w1,
             run w0 es = Some w1 ->
             (N.of_nat (length (readings (session w0))) <= READINGS_MAXLEN)%N ->
             (N.of_nat (length (readings (session w1))) <= READINGS_MAXLEN)%N).
  { clear. induction es as [| e es IH]; intros w0 w1 E H; cbn [run] in E.
    - injection E as <-. exact H.
    - destruct (step w0 e) as [w2 |] eqn:S; [| discriminate].
      apply (IH w2 w1 E). eapply step_length; eassumption. }
  apply (G es (boot sn) w E). cbn. lia.
Qed.

Lemma readings_never_exceed_capacity_witness :
  (N.of_nat (length (readings (session Vectors.baseline_world)))
   <= READINGS_MAXLEN)%N.
Proof.
  apply (readings_never_exceed_capacity Vectors.baseline_world).
  exists None, [Start 0; Tick 1 1 MS5837.BusError]. reflexivity.
Defined.

End Buffer.

(** ** Reading back *)

Section ReadingsSince.

Import PoolSense.

Lemma filter_filter_since (rs : list Reading) (s1 s2 : Q) :
  s1 <= s2 ->
  filter (fun r => Qlt_bool s2 (r_t r)) (filter (fun r => Qlt_bool s1 (r_t r)) rs)
  = filter (fun r => Qlt_bool s2 (r_t r)) rs.
Proof.
  intro H. induction rs as [| r rs IH]; [reflexivity |].
  cbn [filter]. destruct (Qlt_bool s1 (r_t r)) eqn:E1.
  - cbn [filter]. rewrite IH. reflexivity.
  - rewrite IH. destruct (Qlt_bool s2 (r_t r)) eqn:E2; [| reflexivity].
    apply Qlt_bool_iff in E2. apply Qlt_bool_false_iff in E1.
    exfalso. apply (Qlt_irrefl s2).
    eapply Qlt_le_trans; [exact E2 |]. eapply Qle_trans; eassumption.
Qed.

(** X10.  [get_readings_since] returns exactly the stored samples whose time
    stamp is strictly after [since], never more than are stored; filtering
    its answer with a later [since] gives what asking the session with that
    later value gives. *)
Theorem get_readings_since_selects (s : TestSession) (since : Q) :
  (forall r, In r (get_readings_since s since)
             <-> In r (readings s) /\ since < r_t r)
  /\ (length (get_readings_since s since) <= length (readings s))%nat
  /\ (forall later, since <= later ->
        filter (fun r => Qlt_bool later (r_t r)) (get_readings_since s since)
        = get_readings_since s later).
Proof.
  unfold get_readings_since. split; [| split].
  - intro r. rewrite filter_In, Qlt_bool_iff. reflexivity.
  - apply filter_length_le.
  - intros later H. apply filter_filter_since, H.
Qed.

Lemma filter_all {A : Type} (f : A -> bool) (l : list A) :
  (forall x, In x l -> f x = true) -> filter f l = l.
Proof.
  induction l as [| a l IH]; intro H; [reflexivity |].
  cbn [filter]. rewrite (H a (or_introl eq_refl)). f_equal.
  apply IH. intros x Hx. apply H. right. exact Hx.
Qed.

Lemma since_suffix (rs : list Reading) (since : Q) :
  Aux.chronological rs ->
  exists older,
    rs = older ++ filter (fun r => Qlt_bool since (r_t r)) rs
    /\ Forall (fun r => r_t r <= since) older.
Proof.
  intro H. induction H as [| r rs Hr Hs IH].
  - exists []. split; [reflexivity | constructor].
  - cbn [filter]. destruct (Qlt_bool since (r_t r)) eqn:E.
    + exists []. split; [| constructor]. cbn [app]. f_equal.
      symmetry. apply filter_all. intros x Hx.
      apply Qlt_bool_iff. apply Qlt_bool_iff in E.
      rewrite Forall_forall in Hr. eapply Qlt_le_trans; [exact E | apply Hr, Hx].
    + destruct IH as [older [E1 F]]. exists (r :: older). split.
      * cbn [app]. f_equal. exact E1.
      * constructor; [apply Qlt_bool_false_iff, E | exact F].
Qed.

(** X11.  When the samples are stored in the order of their time stamps,
    [get_readings_since] returns the tail of the buffer: everything stored
    before the answer has a time stamp at or before [since]. *)
Theorem get_readings_since_is_tail (s : TestSession) (since : Q) :
  Aux.chronological (readings s) ->
  exists older,
    readings s = older ++ get_readings_since s since
    /\ Forall (fun r => r_t r <= since) older.
Proof. intro H. apply since_suffix, H. Qed.

End ReadingsSince.

Lemma get_readings_since_is_tail_witness :
  exists older,
    PoolSense.readings
      (PoolSense.add_reading (PoolSense.add_reading PoolSense.new_session 1 1013 20 5)
                             2 1013 20 4)
    = older ++ PoolSense.get_readings_since
                 (PoolSense.add_reading
                    (PoolSense.add_reading PoolSense.new_session 1 1013 20 5)
                    2 1013 20 4) 1
    /\ Forall (fun r => PoolSense.r_t r <= 1) older.
Proof.
  apply (get_readings_since_is_tail
           (PoolSense.add_reading
              (PoolSense.add_reading PoolSense.new_session 1 1013 20 5)
              2 1013 20 4) 1).
  repeat constructor. cbn. discriminate.
Defined.

(** ** Evaporation and classification *)

Section Classification.

Import PoolSense.

Lemma evaporation_floor (t : Q) : 0.05 <= _estimate_evaporation t.
Proof.
  unfold _estimate_evaporation, py_max.
  destruct (Qlt_bool 0.05 (0.05 + (t - 15) * 0.008)) eqn:E.
  - apply Qlt_bool_iff in E. apply Qlt_le_weak, E.
  - apply Qle_refl.
Qed.

(** X12.  The evaporation estimate is never below 0.05 mm/hr: it is 0.05 up
    to 15 degrees, [0.05 + (t - 15) * 0.008] from 15 degrees on, and it
    does not decrease when the temperature rises. *)
Theorem estimate_evaporation_shape (t : Q) :
  0.05 <= _estimate_evaporation t
  /\ (t <= 15 -> _estimate_evaporation t == 0.05)
  /\ (15 <= t -> _estimate_evaporation t == 0.05 + (t - 15) * 0.008)
  /\ (forall t', t <= t' -> _estimate_evaporation t <= _estimate_evaporation t').
Proof.
  split; [apply evaporation_floor |].
  assert (M : forall x, _estimate_evaporation x
                        == Qmax 0.05 (0.05 + (x - 15) * 0.008))
    by (intro x; apply py_max_is_Qmax).
  split; [| split].
  - intro H. rewrite M. apply Q.max_l. lra.
  - intro H. rewrite M. apply Q.max_r. lra.
  - intros t' H. rewrite !M. apply Q.max_le_compat_l. lra.
Qed.

Lemma get_verdict_comp (x y : Q) : x == y -> _get_verdict x = _get_verdict y.
Proof.
  intro E. unfold _get_verdict.
  assert (L : forall b, Qlt_bool x b = Qlt_bool y b).
  { intro b. unfold Qlt_bool. f_equal.
    destruct (Qle_bool b x) eqn:A, (Qle_bool b y) eqn:B; try reflexivity.
    - apply Qle_bool_iff in A. rewrite E in A. apply Qle_bool_iff in A. congruence.
    - apply Qle_bool_iff in B. rewrite <- E in B. apply Qle_bool_iff in B. congruence. }
  rewrite !L, (py_round_comp x y 2 E). reflexivity.
Qed.


(** X13.  The class never gets milder when the rate grows, a rate at or
    above 2.0 mm/hr is always a major leak, and every class other than PASS
    quotes the rate rounded to two places in its message. *)
Theorem get_verdict_monotone (r1 r2 : Q) :
  (r1 <= r2 ->
   (Aux.severity (v_status (_get_verdict r1))
    <= Aux.severity (v_status (_get_verdict r2)))%nat)
  /\ (2.0 <= r1 <-> v_status (_get_verdict r1) = MAJOR_LEAK)
  /\ (r1 < 0.1 <-> _get_verdict r1 = mkVerdict PASS MsgNoLeak)
  /\ (0.1 <= r1 ->
      v_message (_get_verdict r1) = MsgMinorLoss (py_round r1 2)
      \/ v_message (_get_verdict r1) = MsgLeakConfirmed (py_round r1 2)
      \/ v_message (_get_verdict r1) = MsgSignificantLeak (py_round r1 2)).
Proof.
  unfold _get_verdict, LEAK_THRESHOLD_MM_HR.
  destruct (Qlt_bool r1 0.1) eqn:A1; destruct (Qlt_bool r1 0.5) eqn:B1;
    destruct (Qlt_bool r1 2.0) eqn:C1;
    destruct (Qlt_bool r2 0.1) eqn:A2; destruct (Qlt_bool r2 0.5) eqn:B2;
    destruct (Qlt_bool r2 2.0) eqn:C2;
    repeat match goal with
    | H : Qlt_bool _ _ = true |- _ => apply Qlt_bool_iff in H
    | H : Qlt_bool _ _ = false |- _ => apply Qlt_bool_false_iff in H
    end;
    cbn [v_status v_message Aux.severity];
    (split; [intro; try lia; exfalso; lra |]);
    (split; [split; intro; try reflexivity; try discriminate; try lra |]);
    (split; [split; intro; try reflexivity; try discriminate; try lra |]);
    intro; try (exfalso; lra); auto.
Qed.


End Classification.


(** ** What the analysis depends on *)

Section Invariance.

Import PoolSense.

Lemma estimate_evaporation_comp (x y : Q) :
  x == y -> _estimate_evaporation x == _estimate_evaporation y.
Proof.
  intro E. unfold _estimate_evaporation. rewrite !py_max_is_Qmax.
  apply Q.max_compat; [reflexivity | rewrite E; reflexivity].
Qed.

(** The result is determined by the number of samples, the raw loss, the
    span and the mean temperature. *)
Lemma calculate_leak_rate_comp (rs rs' : list Reading) :
  length rs = length rs' ->
  Spec.rawLossMm rs == Spec.rawLossMm rs' ->
  Spec.elapsedSeconds rs == Spec.elapsedSeconds rs' ->
  Spec.avgTempC rs == Spec.avgTempC rs' ->
  calculate_leak_rate rs = calculate_leak_rate rs'.
Proof.
  intros HL HR HE HT.
  destruct (Nat.lt_ge_cases (length rs) 60) as [F | F].
  { rewrite !calculate_leak_rate_few by lia. reflexivity. }
  destruct (Qlt_le_dec (Spec.elapsedSeconds rs) 360) as [S | S].
  { rewrite !calculate_leak_rate_short_span; try lia; try reflexivity.
    - rewrite <- HE. exact S.
    - exact S. }
  rewrite !calculate_leak_rate_enough; try lia; try exact S;
    [| rewrite <- HE; exact S].
  assert (HH : Spec.elapsedHours rs == Spec.elapsedHours rs')
    by (unfold Spec.elapsedHours; rewrite HE; reflexivity).
  assert (HV : _estimate_evaporation (Spec.avgTempC rs) * Spec.elapsedHours rs
               == _estimate_evaporation (Spec.avgTempC rs') * Spec.elapsedHours rs')
    by (rewrite (estimate_evaporation_comp _ _ HT), HH; reflexivity).
  assert (HN : net_loss rs == net_loss rs')
    by (unfold net_loss; rewrite HR, HV; reflexivity).
  assert (HQ : net_loss rs / Spec.elapsedHours rs
               == net_loss rs' / Spec.elapsedHours rs')
    by (rewrite HN, HH; reflexivity).
  assert (HG : net_loss rs / Spec.elapsedHours rs * 24 * 60 / 3.785
               == net_loss rs' / Spec.elapsedHours rs' * 24 * 60 / 3.785)
    by (rewrite HQ; reflexivity).
  rewrite (py_round_comp _ _ 2 HR), (py_round_comp _ _ 2 HV),
    (py_round_comp _ _ 2 HN), (py_round_comp _ _ 3 HQ),
    (py_round_comp _ _ 1 HG), (py_round_comp _ _ 2 HH),
    (py_round_comp _ _ 1 HT), (get_verdict_comp _ _ HQ).
  reflexivity.
Qed.



Lemma hd_time {f : Reading -> Reading} (rs : list Reading) (a : Reading) :
  r_t (hd (mkReading 0 0 0 0) (map f (a :: rs))) = r_t (f a).
Proof. reflexivity. Qed.

Lemma last_time (f : Reading -> Reading) (rs : list Reading) (a : Reading) :
  List.last (map f (a :: rs)) (mkReading 0 0 0 0)
  = f (List.last (a :: rs) (mkReading 0 0 0 0)).
Proof.
  revert a. induction rs as [| b rs IH]; intro a; [reflexivity |].
  change (map f (a :: b :: rs)) with (f a :: map f (b :: rs)).
  change (List.last (f a :: map f (b :: rs)) (mkReading 0 0 0 0))
    with (List.last (map f (b :: rs)) (mkReading 0 0 0 0)).
  rewrite IH. reflexivity.
Qed.


(** X16.  Moving every time stamp by the same constant does not change the
    outcome either: only the span between the first and the last sample
    enters it. *)
Theorem leak_rate_ignores_clock_offset (rs : list Reading) (tau : Q) :
  calculate_leak_rate (map (Aux.shift_time tau) rs) = calculate_leak_rate rs.
Proof.
  apply calculate_leak_rate_comp.
  - apply length_map.
  - unfold Spec.rawLossMm, Spec.startDepth, Spec.endDepth.
    rewrite length_map, firstn_map, skipn_map, !map_map. reflexivity.
  - destruct rs as [| a rs]; [reflexivity |].
    unfold Spec.elapsedSeconds, Spec.lastTimestamp, Spec.firstTimestamp.
    rewrite last_time. cbn [map hd Aux.shift_time r_t]. ring.
  - unfold Spec.avgTempC. rewrite map_map. reflexivity.
Qed.

End Invariance.

(** ** The state machine *)

Section StateMachine.

Import PoolSense.

Lemma sensor_tick_session_frame (w : World) (ts now : Q) (raw : MS5837.BusRead) :
  status (session (sensor_tick w ts now raw)) = status (session w)
  /\ start_time (session (sensor_tick w ts now raw)) = start_time (session w)
  /\ result (session (sensor_tick w ts now raw)) = result (session w).
Proof.
  destruct (sensor_tick_appends_only_when_active_aux w ts now raw) as [I A].
  destruct (status (session w)) eqn:S.
  - rewrite I by (left; reflexivity). rewrite S. repeat split.
  - destruct A as [p [temp [d E]]]; [left; reflexivity |]. rewrite E.
    cbn [add_reading status start_time result]. rewrite S. repeat split.
  - destruct A as [p [temp [d E]]]; [right; reflexivity |]. rewrite E.
    cbn [add_reading status start_time result]. rewrite S. repeat split.
  - rewrite I by (right; reflexivity). rewrite S. repeat split.
Qed.

Lemma sensor_tick_world_frame (w : World) (ts now : Q) (raw : MS5837.BusRead) :
  session_obj (sensor_tick w ts now raw) = session_obj w
  /\ objects (sensor_tick w ts now raw) = objects w
  /\ timers (sensor_tick w ts now raw) = timers w
  /\ files (sensor_tick w ts now raw) = files w.
Proof.
  unfold sensor_tick.
  destruct (match sensor w with
            | Some sn => let (sn', ok) := MS5837.read sn raw in (Some sn', ok)
            | None => (None, false)
            end) as [sn' ok]; cbn [fst snd].
  destruct sn' as [sn |]; destruct ok; repeat split.
Qed.

Lemma step_status (w w' : World) (e : Event) :
  step w e = Some w' ->
  status (session w') = Aux.next_status (status (session w)) e.
Proof.
  intro E. destruct e as [ts now raw | now | now | k now]; cbn [step] in E.
  - injection E as <-. apply sensor_tick_session_frame.
  - injection E as <-. reflexivity.
  - injection E as <-.
    destruct (api_stop_always_completes_aux w now) as [r [_ S]].
    rewrite S. reflexivity.
  - destruct (nth_error (timers w) k) as [tm |]; [| discriminate].
    destruct (Qle_bool (due tm) now); [| discriminate].
    injection E as <-. unfold switch_to_testing; cbn [session Aux.next_status].
    destruct (status (session w)) eqn:S; cbn; rewrite ?S; reflexivity.
Qed.

(** X17.  The session's status after any step is a function of the status
    before and of the event: a sensor turn keeps it, a start gives Baseline,
    a stop gives Complete, a timer wake-up turns Baseline into Testing and
    keeps anything else.  So once a test has been started or stopped the
    session is never Idle again, and Testing is entered from Baseline
    only. *)
Theorem step_follows_transition_table (w w' : World) (e : Event) :
  step w e = Some w' ->
  status (session w') = Aux.next_status (status (session w)) e
  /\ (status (session w) <> idle -> status (session w') <> idle)
  /\ (status (session w') = testing ->
      status (session w) = testing \/ status (session w) = baseline).
Proof.
  intro E. pose proof (step_status w w' e E) as T. split; [exact T |].
  rewrite T. destruct e as [ts now raw | now | now | k now];
    destruct (status (session w)); cbn [Aux.next_status];
    split; intros; try congruence; auto.
Qed.

Lemma step_follows_transition_table_witness :
  status (session (fst (api_start (boot None) 0)))
  = Aux.next_status (status (session (boot None))) (Start 0)
  /\ (status (session (boot None)) <> idle ->
      status (session (fst (api_start (boot None) 0))) <> idle)
  /\ (status (session (fst (api_start (boot None) 0))) = testing ->
      status (session (boot None)) = testing
      \/ status (session (boot None)) = baseline).
Proof.
  apply (step_follows_transition_table (boot None) (fst (api_start (boot None) 0))
                                       (Start 0)).
  reflexivity.
Defined.

Lemma step_consistent (w w' : World) (e : Event) :
  step w e = Some w' -> Aux.consistent w -> Aux.consistent w'.
Proof.
  intros E [I1 [I2 [I3 [I4 [I5 I6]]]]].
  destruct e as [ts now raw | now | now | k now]; cbn [step] in E.
  - injection E as <-.
    destruct (sensor_tick_session_frame w ts now raw) as [Fs [Ft Fr]].
    destruct (sensor_tick_world_frame w ts now raw) as [Fo [Fb [Fm Ff]]].
    destruct (sensor_tick_appends_only_when_active_aux w ts now raw) as [In Ac].
    unfold Aux.consistent. rewrite Fs, Ft, Fr, Fo, Fb, Fm.
    repeat split; try assumption.
    + intro N. destruct (status (session w)) eqn:S.
      * rewrite In by (left; reflexivity). apply I2, N.
      * destruct I1 as [t Et]; [left; reflexivity | congruence].
      * destruct I1 as [t Et]; [right; reflexivity | congruence].
      * rewrite In by (right; reflexivity). apply I2, N.
    + intro Cm. rewrite In by (right; exact Cm). apply I4, Cm.
  - injection E as <-. unfold Aux.consistent. cbn.
    repeat split; try congruence; try discriminate.
    + intros _. eexists; reflexivity.
    + apply Forall_app. split.
      * eapply Forall_impl; [| exact I6]. cbn. intros; lia.
      * repeat constructor.
  - injection E as <-.
    destruct (api_stop_always_completes_aux w now) as [r [Er S]].
    unfold Aux.consistent. rewrite S. cbn [status start_time readings result].
    assert (Fw : session_obj (fst (api_stop w now)) = session_obj w
                 /\ objects (fst (api_stop w now)) = objects w
                 /\ timers (fst (api_stop w now)) = timers w).
    { unfold api_stop. destruct (calculate_leak_rate _); repeat split. }
    destruct Fw as [Fo [Fb Fm]]. rewrite Fo, Fb, Fm.
    repeat split; try assumption; try congruence.
    intros [H | H]; discriminate H.
  - destruct (nth_error (timers w) k) as [tm |] eqn:N; [| discriminate].
    destruct (Qle_bool (due tm) now); [| discriminate].
    injection E as <-.
    assert (Fm : Forall (fun tm => (owner tm < objects w)%nat)
                        (remove_nth k (timers w))).
    { clear - I6. revert k. induction I6 as [| a l Ha Hl IH]; intro k.
      - destruct k; constructor.
      - destruct k; cbn [remove_nth]; [assumption | constructor; auto]. }
    unfold switch_to_testing; cbn [session].
    destruct (status (session w)) eqn:S; cbn [Status_eqb];
      unfold Aux.consistent; cbn; rewrite ?S;
      repeat split; try assumption; try congruence;
      try (intros [H | H]; discriminate H);
      try (intros _; apply I1; auto);
      try (intro H; apply I3 in H; congruence).
Qed.

Lemma run_consistent (es : list Event) (w w' : World) :
  run w es = Some w' -> Aux.consistent w -> Aux.consistent w'.
Proof.
  revert w. induction es as [| e es IH]; intros w E H; cbn [run] in E.
  - injection E as <-. exact H.
  - destruct (step w e) as [w1 |] eqn:S; [| discriminate].
    apply (IH w1 E). eapply step_consistent; eassumption.
Qed.

Lemma boot_consistent (sn : option MS5837.Sensor) : Aux.consistent (boot sn).
Proof.
  unfold Aux.consistent. cbn.
  repeat split; try congruence; try constructor.
  intros [H | H]; discriminate H.
Qed.

Lemma reachable_consistent (w : World) : Aux.reachable w -> Aux.consistent w.
Proof.
  intros [sn [es E]]. eapply run_consistent; [exact E | apply boot_consistent].
Qed.

(** X18.  In every world a process can reach: a session in Baseline or
    Testing has a start time; a session without a start time has no
    samples; a result is present only on a Complete session, and on a
    Complete session it is what the analysis gives on the stored samples;
    the current session is the last one built, and every timer thread
    belongs to a session that was built. *)
Theorem reachable_worlds_are_consistent (w : World) :
  Aux.reachable w ->
  (status (session w) = baseline \/ status (session w) = testing ->
   exists t, start_time (session w) = Some t)
  /\ (start_time (session w) = None -> readings (session w) = [])
  /\ (result (session w) <> None -> status (session w) = complete)
  /\ (status (session w) = complete ->
      calculate_leak_rate (readings (session w)) = Ret (result (session w)))
  /\ objects w = S (session_obj w)
  /\ Forall (fun tm => (owner tm < objects w)%nat) (timers w).
Proof. intro R. exact (reachable_consistent w R). Qed.

Lemma reachable_worlds_are_consistent_witness :
  let w := Vectors.baseline_world in
  (status (session w) = baseline \/ status (session w) = testing ->
   exists t, start_time (session w) = Some t)
  /\ (start_time (session w) = None -> readings (session w) = [])
  /\ (result (session w) <> None -> status (session w) = complete)
  /\ (status (session w) = complete ->
      calculate_leak_rate (readings (session w)) = Ret (result (session w)))
  /\ objects w = S (session_obj w)
  /\ Forall (fun tm => (owner tm < objects w)%nat) (timers w).
Proof.
  apply (reachable_worlds_are_consistent Vectors.baseline_world).
  exists None, [Start 0; Tick 1 1 MS5837.BusError]. reflexivity.
Defined.

(** X19.  A completed session is frozen: in a reachable world whose session
    is Complete, sensor turns, timer wake-ups and further stops leave the
    session exactly as it is; only a start replaces it. *)
Theorem complete_session_is_frozen (w w' : World) (e : Event) :
  Aux.reachable w ->
  status (session w) = complete ->
  step w e = Some w' ->
  Aux.is_start e = false ->
  session w' = session w.
Proof.
  intros R Cm E NS. destruct (reachable_consistent w R) as [_ [_ [_ [I4 _]]]].
  destruct e as [ts now raw | now | now | k now]; cbn [step] in E.
  - injection E as <-.
    apply (proj1 (sensor_tick_appends_only_when_active_aux w ts now raw)).
    right. exact Cm.
  - discriminate NS.
  - injection E as <-.
    destruct (api_stop_always_completes_aux w now) as [r [Er S]].
    rewrite S. rewrite (I4 Cm) in Er. injection Er as <-.
    rewrite <- Cm. destruct (session w); reflexivity.
  - destruct (nth_error (timers w) k) as [tm |]; [| discriminate].
    destruct (Qle_bool (due tm) now); [| discriminate].
    injection E as <-. rewrite switch_to_testing_otherwise; [reflexivity |].
    cbn [session]. rewrite Cm. discriminate.
Qed.

End StateMachine.

Lemma complete_session_is_frozen_witness :
  PoolSense.session
    (PoolSense.sensor_tick
       (fst (PoolSense.api_stop (fst (PoolSense.api_start (PoolSense.boot None) 0)) 60))
       61 61 MS5837.BusError)
  = PoolSense.session
      (fst (PoolSense.api_stop (fst (PoolSense.api_start (PoolSense.boot None) 0)) 60)).
Proof.
  apply (complete_session_is_frozen
           (fst (PoolSense.api_stop (fst (PoolSense.api_start (PoolSense.boot None) 0)) 60))
           _ (PoolSense.Tick 61 61 MS5837.BusError)).
  - exists None, [PoolSense.Start 0; PoolSense.Stop 60]. reflexivity.
  - reflexivity.
  - reflexivity.
  - reflexivity.
Defined.

(** ** Counters, timers and files *)

Section Bookkeeping.

Import PoolSense.


Lemma api_stop_frame (w : World) (now : Q) :
  session_obj (fst (api_stop w now)) = session_obj w
  /\ objects (fst (api_stop w now)) = objects w
  /\ timers (fst (api_stop w now)) = timers w
  /\ sensor (fst (api_stop w now)) = sensor w
  /\ baseline_offset (fst (api_stop w now)) = baseline_offset w
  /\ files (fst (api_stop w now))
     = files w ++ [mkSaved (result (session (fst (api_stop w now))))
                           (length (readings (session w)))
                           (start_time (session w)) now].
Proof.
  destruct (calculate_leak_rate_returns (readings (session w))) as [r E].
  unfold api_stop. cbn [set_status readings]. rewrite E. repeat split.
Qed.





(** What [api_stop] writes: exactly one record is added to the files, and
    it carries the result now stored in the session, the number of samples
    of the session, its start time and the time of the stop; the sensor, the
    timers and the counters are untouched. *)
Lemma api_stop_saves_result (w : World) (now : Q) :
  files (fst (api_stop w now))
  = files w ++ [mkSaved (result (session (fst (api_stop w now))))
                        (length (readings (session (fst (api_stop w now)))))
                        (start_time (session (fst (api_stop w now)))) now]
  /\ snd (api_stop w now)
     = Ret (StopReply true (result (session (fst (api_stop w now)))))
  /\ timers (fst (api_stop w now)) = timers w
  /\ sensor (fst (api_stop w now)) = sensor w
  /\ session_obj (fst (api_stop w now)) = session_obj w.
Proof.
  destruct (calculate_leak_rate_returns (readings (session w))) as [r E].
  unfold api_stop. cbn [set_status readings]. rewrite E. repeat split.
Qed.

(** X21.  A timer thread can only wake at or after its due time.  When it
    does, it leaves the list of sleeping threads; if the current session is
    in Baseline only its status changes, to Testing (samples, start time
    and result are kept); in any other state the session is left as it
    is, so a test stopped during its baseline phase is not promoted
    later. *)
Theorem wake_effect (w w' : World) (k : nat) (now : Q) :
  step w (Wake k now) = Some w' ->
  (exists tm, nth_error (timers w) k = Some tm /\ due tm <= now)
  /\ timers w' = remove_nth k (timers w)
  /\ (status (session w) = baseline ->
      session w' = set_status (session w) testing)
  /\ (status (session w) <> baseline -> session w' = session w)
  /\ files w' = files w /\ session_obj w' = session_obj w.
Proof.
  intro E. cbn [step] in E.
  destruct (nth_error (timers w) k) as [tm |] eqn:N; [| discriminate].
  destruct (Qle_bool (due tm) now) eqn:D; [| discriminate].
  injection E as <-. apply Qle_bool_iff in D.
  split; [exists tm; split; [reflexivity | exact D] |].
  unfold switch_to_testing; cbn [session].
  destruct (status (session w)) eqn:S; cbn;
    repeat split; intros; try congruence; try reflexivity.
Qed.

Lemma wake_effect_witness :
  let w := fst (api_start (boot None) 0) in
  let w' := switch_to_testing
              (mkWorld (session w) (session_obj w) (objects w) (sensor w)
                       (baseline_offset w) (remove_nth 0 (timers w)) (files w)) in
  (exists tm, nth_error (timers w) 0 = Some tm /\ due tm <= 900)
  /\ timers w' = remove_nth 0 (timers w)
  /\ (status (session w) = baseline ->
      session w' = set_status (session w) testing)
  /\ (status (session w) <> baseline -> session w' = session w)
  /\ files w' = files w /\ session_obj w' = session_obj w.
Proof.
  apply (wake_effect (fst (api_start (boot None) 0)) _ 0 900).
  reflexivity.
Defined.

(** The due time of the timer that [api_start] creates. *)
Lemma api_start_timer (w : World) (now : Q) :
  exists tm, timers (fst (api_start w now)) = timers w ++ [tm]
    /\ owner tm = session_obj (fst (api_start w now))
    /\ due tm == now + 900.
Proof.
  eexists. split; [reflexivity |]. split; [reflexivity |].
  cbn [due]. unfold BASELINE_DURATION_MIN. ring.
Qed.

End Bookkeeping.

(** ** The sensor loop *)

Section SensorLoop.

Import PoolSense.

(** X22.  A sensor turn touches nothing but the samples, the sensor object
    and the recorded offset: status, start time and result of the session,
    the timers, the files and the session counters are as before, and the
    samples are either unchanged or extended by one sample that carries the
    turn's time stamp. *)
Theorem sensor_tick_touches_only_samples
        (w : World) (timestamp now : Q) (raw : MS5837.BusRead) :
  let w' := sensor_tick w timestamp now raw in
  status (session w') = status (session w)
  /\ start_time (session w') = start_time (session w)
  /\ result (session w') = result (session w)
  /\ timers w' = timers w /\ files w' = files w
  /\ session_obj w' = session_obj w /\ objects w' = objects w
  /\ (readings (session w') = readings (session w)
      \/ exists r, r_t r = timestamp
           /\ readings (session w')
              = deque_append READINGS_MAXLEN (readings (session w)) r).
Proof.
  cbv zeta.
  destruct (sensor_tick_session_frame w timestamp now raw) as [A [B C]].
  destruct (sensor_tick_world_frame w timestamp now raw) as [D [E [F G]]].
  repeat (split; [assumption |]).
  destruct (sensor_tick_appends_only_when_active_aux w timestamp now raw) as [I Ac].
  destruct (status (session w)) eqn:S.
  - left. rewrite I by (left; reflexivity). reflexivity.
  - right. destruct Ac as [p [temp [d H]]]; [left; reflexivity |].
    rewrite H. eexists. split; [| reflexivity]. reflexivity.
  - right. destruct Ac as [p [temp [d H]]]; [right; reflexivity |].
    rewrite H. eexists. split; [| reflexivity]. reflexivity.
  - left. rewrite I by (right; reflexivity). reflexivity.
Qed.

Lemma read_keeps_calibration (sn : MS5837.Sensor) (raw : MS5837.BusRead) :
  MS5837.C (fst (MS5837.read sn raw)) = MS5837.C sn
  /\ MS5837.fluid_density (fst (MS5837.read sn raw)) = MS5837.fluid_density sn.
Proof. destruct raw; split; reflexivity. Qed.

Lemma same_equipment_refl (w : World) : Aux.same_equipment w w.
Proof.
  unfold Aux.same_equipment. destruct (sensor w); split; auto.
Qed.

Lemma same_equipment_trans (a b c : World) :
  Aux.same_equipment a b -> Aux.same_equipment b c -> Aux.same_equipment a c.
Proof.
  unfold Aux.same_equipment. intros [S1 O1] [S2 O2]. split; [| auto].
  destruct (sensor a), (sensor b), (sensor c); try tauto.
  destruct S1, S2. split; congruence.
Qed.

Lemma step_same_equipment (w w' : World) (e : Event) :
  step w e = Some w' -> Aux.same_equipment w w'.
Proof.
  intro E. destruct e as [ts now raw | now | now | k now]; cbn [step] in E.
  - injection E as <-. unfold Aux.same_equipment, sensor_tick.
    destruct (sensor w) as [sn |] eqn:Sn.
    + pose proof (read_keeps_calibration sn raw) as K.
      destruct (MS5837.read sn raw) as [sn' ok]. cbn [fst snd] in *.
      destruct ok; cbn [sensor baseline_offset]; (split; [exact K |]);
        intros o H; rewrite H; reflexivity.
    + cbn [fst snd sensor baseline_offset]. split; auto.
  - injection E as <-. unfold Aux.same_equipment.
    cbn [api_start fst sensor baseline_offset]. destruct (sensor w); split; auto.
  - injection E as <-.
    destruct (api_stop_frame w now) as [_ [_ [_ [Fs [Fo _]]]]].
    unfold Aux.same_equipment. rewrite Fs, Fo. apply same_equipment_refl.
  - destruct (nth_error (timers w) k) as [tm |]; [| discriminate].
    destruct (Qle_bool (due tm) now); [| discriminate].
    injection E as <-. unfold switch_to_testing; cbn [session].
    destruct (Status_eqb (status (session w)) baseline);
      unfold Aux.same_equipment; cbn [with_session sensor baseline_offset];
      destruct (sensor w); split; auto.
Qed.

(** X23.  Over any run: a process without a sensor never gets one and a
    process with a sensor keeps it, with the same calibration words and
    fluid density; and the offset recorded at the first successful reading
    is never changed afterwards. *)
Theorem equipment_is_stable (es : list Event) (w w' : World) :
  run w es = Some w' ->
  match sensor w, sensor w' with
  | None, None => True
  | Some sn, Some sn' =>
      MS5837.C sn' = MS5837.C sn
      /\ MS5837.fluid_density sn' = MS5837.fluid_density sn
  | _, _ => False
  end
  /\ (forall o, baseline_offset w = Some o -> baseline_offset w' = Some o).
Proof.
  revert w. induction es as [| e es IH]; intros w E; cbn [run] in E.
  - injection E as <-. apply same_equipment_refl.
  - destruct (step w e) as [w1 |] eqn:S; [| discriminate].
    apply (same_equipment_trans w w1 w').
    + eapply step_same_equipment; exact S.
    + apply IH, E.
Qed.

Lemma equipment_is_stable_witness :
  match sensor (boot None), sensor Vectors.baseline_world with
  | None, None => True
  | Some sn, Some sn' =>
      MS5837.C sn' = MS5837.C sn
      /\ MS5837.fluid_density sn' = MS5837.fluid_density sn
  | _, _ => False
  end
  /\ (forall o, baseline_offset (boot None) = Some o ->
                baseline_offset Vectors.baseline_world = Some o).
Proof.
  apply (equipment_is_stable [Start 0; Tick 1 1 MS5837.BusError]
                             (boot None) Vectors.baseline_world).
  reflexivity.
Defined.



End SensorLoop.

(** ** The polling endpoint *)

Section Polling.

Import PoolSense.

Lemma last_app_nonempty {A : Type} (l1 l2 : list A) (d : A) :
  l2 <> [] -> List.last (l1 ++ l2) d = List.last l2 d.
Proof.
  intro H. induction l1 as [| a l1 IH]; [reflexivity |].
  cbn [app]. destruct (l1 ++ l2) as [| b l] eqn:E.
  - destruct l1; cbn in E; [congruence | discriminate].
  - change (List.last (a :: b :: l) d) with (List.last (b :: l) d). exact IH.
Qed.

Lemma slice_last_suffix {A : Type} (n : nat) (l : list A) :
  exists dropped, l = dropped ++ slice_last n l
    /\ (length (slice_last n l) <= n)%nat
    /\ length (slice_last n l) = Nat.min n (length l).
Proof.
  unfold slice_last. exists (firstn (length l - n) l).
  split; [symmetry; apply firstn_skipn |].
  rewrite length_skipn. lia.
Qed.

Lemma api_data_returns (w : World) (since now : Q) :
  exists lr,
    (if Status_eqb (status (session w)) testing
        && Qlt_bool 6 (elapsed_minutes (session w) now)
     then calculate_leak_rate (readings (session w)) else Ret None) = Ret lr
    /\ api_data w since now
       = Ret (mkData (status (session w))
                     (py_int (elapsed_minutes (session w) now),
                      py_int (py_mod1 (elapsed_minutes (session w) now) * 60))
                     (length (readings (session w)))
                     (slice_last 300 (get_readings_since (session w) since))
                     (match get_readings_since (session w) since with
                      | [] => None
                      | _ => Some (List.last (get_readings_since (session w) since)
                                             (mkReading 0 0 0 0))
                      end)
                     lr (result (session w))).
Proof.
  unfold api_data. cbv zeta.
  destruct (Status_eqb (status (session w)) testing
            && Qlt_bool 6 (elapsed_minutes (session w) now)).
  - destruct (calculate_leak_rate_returns (readings (session w))) as [r E].
    exists r. rewrite E. split; reflexivity.
  - exists None. split; reflexivity.
Qed.

(** X25.  [api_data] always answers.  The reply carries the status, the
    total number of stored samples and the stored result; its new samples
    are the last ones, at most 300, of those after [since]; and [latest] is
    absent exactly when nothing is new, and otherwise is the newest of them,
    which is also the last sample of the reply. *)
Theorem api_data_reply (w : World) (since now : Q) :
  exists d, api_data w since now = Ret d
    /\ d_status d = status (session w)
    /\ d_total_readings d = length (readings (session w))
    /\ d_result d = result (session w)
    /\ (length (d_new_readings d) <= 300)%nat
    /\ (exists dropped,
          get_readings_since (session w) since = dropped ++ d_new_readings d)
    /\ (d_latest d = None <-> get_readings_since (session w) since = [])
    /\ (forall r, d_latest d = Some r ->
          List.last (d_new_readings d) (mkReading 0 0 0 0) = r
          /\ In r (readings (session w)) /\ since < r_t r).
Proof.
  destruct (api_data_returns w since now) as [lr [_ E]].
  eexists. split; [exact E |].
  cbn [d_status d_total_readings d_result d_new_readings d_latest].
  destruct (slice_last_suffix 300 (get_readings_since (session w) since))
    as [dropped [Ed [L _]]].
  repeat (split; [reflexivity || assumption |]).
  split; [exists dropped; exact Ed |].
  destruct (get_readings_since (session w) since) as [| a l] eqn:G.
  - split; [split; reflexivity | intros r H; discriminate H].
  - split; [split; intro H; discriminate H |].
    intros r H. injection H as <-.
    assert (NE : slice_last 300 (a :: l) <> []).
    { intro Z. apply (f_equal (@length Reading)) in Z.
      unfold slice_last in Z. rewrite length_skipn in Z. cbn [length] in Z. lia. }
    split.
    + transitivity (List.last (dropped ++ slice_last 300 (a :: l)) (mkReading 0 0 0 0));
        [symmetry; apply last_app_nonempty, NE | rewrite <- Ed; reflexivity].
    + assert (M : In (List.last (a :: l) (mkReading 0 0 0 0))
                     (get_readings_since (session w) since)).
      { rewrite G. destruct (exists_last (l := a :: l)) as [l' [b Eb]];
          [discriminate |].
        rewrite Eb, last_last. apply in_or_app. right. left. reflexivity. }
      unfold get_readings_since in M. apply filter_In in M.
      destruct M as [M1 M2]. apply Qlt_bool_iff in M2. split; assumption.
Qed.






(** X27.  A preview verdict appears in the reply only while the session is
    Testing and more than six minutes have elapsed, and then only when the
    analysis has enough data: at least 60 samples spanning at least six
    minutes. *)
Theorem api_data_preview (w : World) (since now : Q) :
  exists d, api_data w since now = Ret d
    /\ (forall v, d_leak_rate d = Some v ->
          status (session w) = testing
          /\ 6 < elapsed_minutes (session w) now
          /\ Spec.accepted (readings (session w))
          /\ calculate_leak_rate (readings (session w)) = Ret (Some v))
    /\ (status (session w) <> testing -> d_leak_rate d = None).
Proof.
  destruct (api_data_returns w since now) as [lr [L E]].
  eexists. split; [exact E |]. cbn [d_leak_rate].
  destruct (status (session w)) eqn:S; cbn [Status_eqb andb] in L;
    try (injection L as <-; split; [intros v H; discriminate H | reflexivity]).
  split; [| intro H; congruence].
  intros v H. subst lr.
  destruct (Qlt_bool 6 (elapsed_minutes (session w) now)) eqn:T;
    [| discriminate L].
  apply Qlt_bool_iff in T. repeat split; try assumption.
  - destruct (Nat.lt_ge_cases (length (readings (session w))) 60) as [F | F];
      [rewrite calculate_leak_rate_few in L by exact F; discriminate L | exact F].
  - destruct (Nat.lt_ge_cases (length (readings (session w))) 60) as [F | F];
      [rewrite calculate_leak_rate_few in L by exact F; discriminate L |].
    destruct (Qlt_le_dec (Spec.elapsedSeconds (readings (session w))) 360)
      as [Sh | Lg]; [| exact Lg].
    rewrite calculate_leak_rate_short_span in L by assumption. discriminate L.
Qed.

End Polling.
